(** * FirebaseService: the presentation store facade

    A shallow embedding of [BE/services/firebase_service.py].  The facade is
    a thin layer over three platform clients (identity, object storage,
    document store).  Python values are embedded as an inductive type, the
    methods as computations in a state-and-exception monad over a [world]
    that holds the platform's state, the Python objects shared with the
    caller, the server clock, and the tapes that decide what the platform
    and the random source do next.  Calls to [logger] have no effect on any
    result and are left out. *)

From stdpp Require Import base option list gmap strings sorting pretty.
From Stdlib Require Import ZArith Lia.

#[local] Open Scope string_scope.
#[local] Open Scope list_scope.
#[local] Open Scope nat_scope.
#[local] Set Warnings "-register-all,-clear-no-such-hyp".

(* ===================================================================== *)
(** ** Python values *)
(* ===================================================================== *)

(** The values a presentation document or a request dictionary can hold.
    [VServerTimestamp] is [firestore.SERVER_TIMESTAMP], the sentinel that
    the document store replaces by its own clock when it writes; [VTime] is
    such a resolved timestamp.  Dictionaries keep insertion order, as
    Python's do; their keys are strings. *)
Inductive value : Type :=
| VNone
| VBool (b : bool)
| VInt (z : Z)
| VStr (s : string)
| VTime (t : nat)
| VServerTimestamp
| VList (l : list value)
| VDict (d : list (string * value)).

Abbreviation pydict := (list (string * value)).

Inductive exn : Type :=
| BackendError        (* the platform or the network failed *)
| NotFound            (* document or object absent *)
| InvalidToken
| UserNotFound
| FileNotFoundError
| TypeError
| AttributeError
| KeyError
| IndexError.

Inductive outcome (A : Type) : Type :=
| Ok (a : A)
| Raise (e : exn).
Arguments Ok {A} a.
Arguments Raise {A} e.

#[global] Instance outcome_ret : MRet outcome := @Ok.
#[global] Instance outcome_bind : MBind outcome :=
  λ A B k o, match o with Ok a => k a | Raise e => Raise e end.

Module Py.

(** [bool(v)] *)
Definition truthy (v : value) : bool :=
  match v with
  | VNone => false
  | VBool b => b
  | VInt z => negb (z =? 0)%Z
  | VStr s => negb (String.eqb s "")
  | VTime _ => true
  | VServerTimestamp => true
  | VList l => match l with [] => false | _ => true end
  | VDict d => match d with [] => false | _ => true end
  end.

(** Truth value of an [Optional[str]] argument. *)
Definition truthy_opt (o : option string) : bool :=
  match o with
  | None => false
  | Some s => negb (String.eqb s "")
  end.

(** [v == s] for a string [s]: only an equal string is equal to it. *)
Definition eq_str (v : value) (s : string) : bool :=
  match v with
  | VStr s' => String.eqb s' s
  | _ => false
  end.

(** [v == o] for an [Optional[str]] [o]. *)
Definition eq_opt (v : value) (o : option string) : bool :=
  match o with
  | Some s => eq_str v s
  | None => match v with VNone => true | _ => false end
  end.

(** Lookup in a dictionary: the first entry under the key. *)
Fixpoint lookup (d : pydict) (k : string) : option value :=
  match d with
  | [] => None
  | (k', v) :: d' => if String.eqb k' k then Some v else lookup d' k
  end.

(** [d.get(k)] *)
Definition get (d : pydict) (k : string) : value :=
  default VNone (lookup d k).

(** [d.get(k, dflt)] *)
Definition get_default (d : pydict) (k : string) (dflt : value) : value :=
  default dflt (lookup d k).

(** [d[k] = v]: overwrite in place, or append a new entry. *)
Fixpoint set (d : pydict) (k : string) (v : value) : pydict :=
  match d with
  | [] => [(k, v)]
  | (k', v') :: d' =>
      if String.eqb k' k then (k', v) :: d' else (k', v') :: set d' k v
  end.

Definition keys (d : pydict) : list string := d.*1.

(** [d[k]] *)
Definition getitem (d : pydict) (k : string) : outcome value :=
  match lookup d k with
  | Some v => Ok v
  | None => Raise KeyError
  end.

(** [v.get(k)] on an arbitrary value: only dictionaries have [get]. *)
Definition value_get (v : value) (k : string) : outcome value :=
  match v with
  | VDict d => Ok (get d k)
  | _ => Raise AttributeError
  end.

(** [v[k]] for a string key on an arbitrary value. *)
Definition value_getitem (v : value) (k : string) : outcome value :=
  match v with
  | VDict d => getitem d k
  | _ => Raise TypeError
  end.

Definition chars (s : string) : list value :=
  (λ c, VStr (String c EmptyString)) <$> String.list_ascii_of_string s.

(** [len(v)]; a string is taken as the sequence of its characters, one
    [ascii] each. *)
Definition len (v : value) : outcome Z :=
  match v with
  | VList l => Ok (Z.of_nat (length l))
  | VDict d => Ok (Z.of_nat (length d))
  | VStr s => Ok (Z.of_nat (String.length s))
  | _ => Raise TypeError
  end.

(** The elements [for x in v] runs over. *)
Definition iter (v : value) : outcome (list value) :=
  match v with
  | VList l => Ok l
  | VDict d => Ok (VStr <$> keys d)
  | VStr s => Ok (chars s)
  | _ => Raise TypeError
  end.

(** [v[0]] *)
Definition first (v : value) : outcome value :=
  match v with
  | VList l => match l with x :: _ => Ok x | [] => Raise IndexError end
  | VStr s => match chars s with x :: _ => Ok x | [] => Raise IndexError end
  | VDict _ => Raise KeyError
  | _ => Raise TypeError
  end.

End Py.

(* ===================================================================== *)
(** ** The world *)
(* ===================================================================== *)

(** One entry of the platform tape: how much server time passes before the
    next request is served, and whether that request fails. *)
Record fate := Fate { elapsed : nat; fails : bool }.

(** Requests sent to the platform. *)
Inductive request : Type :=
| ReqVerifyToken (id_token : string)
| ReqGetUser (uid : string)
| ReqCustomToken (uid : string)
| ReqBlobUpload (path : string)
| ReqBlobMakePublic (path : string)
| ReqBlobDelete (path : string)
| ReqDocGet (id : string)
| ReqDocSet (id : string)
| ReqDocUpdate (id : string)
| ReqDocDelete (id : string)
| ReqQuery (owner : string) (limit : Z).

Record blob := Blob {
  blob_content : string;
  blob_content_type : option string;
  blob_public : bool
}.

Record account := Account {
  acc_uid : string;
  acc_email : value;
  acc_display_name : value;
  acc_photo_url : value;
  acc_email_verified : value
}.

Record world := World {
  docs : gmap string pydict;         (* the 'presentations' collection *)
  bucket : gmap string blob;         (* the storage bucket *)
  sessions : gmap string pydict;     (* valid ID tokens and what they decode to *)
  accounts : gmap string account;    (* the identity platform's users *)
  signer : string → string;          (* custom-token signing *)
  files : gmap string string;        (* local files, by path *)
  heap : gmap nat pydict;            (* dict objects shared with the caller *)
  now : nat;                         (* the server clock *)
  tape : list fate;                  (* fate of the coming platform requests *)
  sent : list request;               (* requests sent so far, oldest first *)
  uuid_tape : nat → string;          (* what uuid4 returns, call by call *)
  uuid_next : nat;                   (* number of uuid4 calls so far *)
  mimetypes : string → option string (* the type guessed from a file name *)
}.

Definition set_docs (f : gmap string pydict → gmap string pydict) (w : world) : world :=
  World (f (docs w)) (bucket w) (sessions w) (accounts w) (signer w) (files w)
        (heap w) (now w) (tape w) (sent w) (uuid_tape w) (uuid_next w) (mimetypes w).

Definition set_bucket (f : gmap string blob → gmap string blob) (w : world) : world :=
  World (docs w) (f (bucket w)) (sessions w) (accounts w) (signer w) (files w)
        (heap w) (now w) (tape w) (sent w) (uuid_tape w) (uuid_next w) (mimetypes w).

Definition set_heap (f : gmap nat pydict → gmap nat pydict) (w : world) : world :=
  World (docs w) (bucket w) (sessions w) (accounts w) (signer w) (files w)
        (f (heap w)) (now w) (tape w) (sent w) (uuid_tape w) (uuid_next w) (mimetypes w).

(** The ids [uuid4] has handed out so far. *)
Definition issued (w : world) : list string :=
  uuid_tape w <$> seq 0 (uuid_next w).

(* ===================================================================== *)
(** ** State and exceptions *)
(* ===================================================================== *)

Definition M (A : Type) : Type := world → outcome A * world.

Definition ret {A} (a : A) : M A := λ w, (Ok a, w).

Definition bind {A B} (m : M A) (k : A → M B) : M B :=
  λ w, match m w with
       | (Ok a, w') => k a w'
       | (Raise e, w') => (Raise e, w')
       end.

Definition raise {A} (e : exn) : M A := λ w, (Raise e, w).

(** A Python-level evaluation that may raise. *)
Definition lift {A} (o : outcome A) : M A := λ w, (o, w).

(** [try: body except Exception as e: handler e] *)
Definition try_except {A} (body : M A) (handler : exn → M A) : M A :=
  λ w, match body w with
       | (Ok a, w') => (Ok a, w')
       | (Raise e, w') => handler e w'
       end.

#[global] Instance M_ret : MRet M := @ret.
#[global] Instance M_bind : MBind M := λ A B k m, bind m k.

(** [for x in xs: body x] *)
Fixpoint for_each {A} (xs : list A) (body : A → M unit) : M unit :=
  match xs with
  | [] => ret tt
  | x :: xs' => body x;; for_each xs' body
  end.

(* ===================================================================== *)
(** ** The platform *)
(* ===================================================================== *)

Definition next_fate (w : world) : fate :=
  match tape w with
  | [] => Fate 0 false
  | f :: _ => f
  end.

(** Modelled from the spec: the platform's clock, by which timestamps are
    server-assigned (the platform is not part of the repository); it never
    goes back.  Sending a request records it, takes its fate off the tape
    and lets the time before it is served pass. *)
Definition sending (r : request) (w : world) : world :=
  World (docs w) (bucket w) (sessions w) (accounts w) (signer w) (files w)
        (heap w) (now w + elapsed (next_fate w)) (tail (tape w))
        (sent w ++ [r]) (uuid_tape w) (uuid_next w) (mimetypes w).

(** A request to the platform: it fails when its fate says so, and is
    served otherwise. *)
Definition call {A} (r : request) (serve : M A) : M A :=
  λ w, if fails (next_fate w)
       then (Raise BackendError, sending r w)
       else serve (sending r w).

Module Firestore.

Definition resolve (t : nat) (v : value) : value :=
  match v with
  | VServerTimestamp => VTime t
  | _ => v
  end.

(** Modelled from the spec: the document store's write-time treatment of
    [SERVER_TIMESTAMP] (the client library is not part of the
    repository); timestamps are server-assigned, "now" at the write. *)
Definition stamp (t : nat) (d : pydict) : pydict :=
  (λ kv, (kv.1, resolve t kv.2)) <$> d.

(** Modelled from the spec: the document store's merge on update (client
    library not in the repository), a shallow field overwrite: each field
    of the patch replaces the stored field of that name or is added
    ([for k in patch: old[k] = patch[k]]); a key of the patch is the name
    of a field, taken whole. *)
Definition merge (old patch : pydict) : pydict :=
  foldl (λ acc k, Py.set acc k (Py.get patch k)) old (Py.keys patch).

(** Modelled from the spec: the order of the document store on field
    values (client library and service not in the repository).  Values of
    one kind are ordered among themselves, timestamps by time; values of
    different kinds by kind.  Two arrays, and two maps, count as equal. *)
Definition kind_rank (v : value) : nat :=
  match v with
  | VNone => 0
  | VBool _ => 1
  | VInt _ => 2
  | VTime _ => 3
  | VStr _ => 4
  | VList _ => 5
  | VDict _ => 6
  | VServerTimestamp => 7
  end.

Definition leb (a b : value) : bool :=
  match a, b with
  | VBool x, VBool y => implb x y
  | VInt x, VInt y => (x <=? y)%Z
  | VTime x, VTime y => x <=? y
  | VStr x, VStr y => String.leb x y
  | _, _ => kind_rank a <=? kind_rank b
  end.

(** [d1] comes no later than [d2] under
    [order_by('created_at', direction=DESCENDING)]. *)
Definition created_desc (d1 d2 : pydict) : Prop :=
  leb (Py.get d2 "created_at") (Py.get d1 "created_at") = true.

#[global] Instance created_desc_dec d1 d2 : Decision (created_desc d1 d2).
Proof. unfold created_desc. apply _. Defined.

(** [where('user_id', '==', owner)] *)
Definition owned_by (owner : string) (d : pydict) : bool :=
  Py.eq_str (Py.get d "user_id") owner.

(** Modelled from the spec: [document(id).get()] of the document store
    (client library not in the repository); [None] is a snapshot whose
    [exists] is false, [Some d] one whose [to_dict()] is [d]. *)
Definition doc_get (id : string) : M (option pydict) :=
  call (ReqDocGet id) (λ w, (Ok (docs w !! id), w)).

(** Modelled from the spec: [document(id).set(data)] (client library not
    in the repository): persists the record under [id]. *)
Definition doc_set (id : string) (data : pydict) : M unit :=
  call (ReqDocSet id)
       (λ w, (Ok tt, set_docs (insert id (stamp (now w) data)) w)).

(** Modelled from the spec: [document(id).update(patch)] (client library
    not in the repository): merges the patch into the stored record. *)
Definition doc_update (id : string) (patch : pydict) : M unit :=
  call (ReqDocUpdate id)
       (λ w, match docs w !! id with
             | None => (Raise NotFound, w)
             | Some old =>
                 (Ok tt, set_docs (insert id (merge old (stamp (now w) patch))) w)
             end).

(** Modelled from the spec: [document(id).delete()] (client library not
    in the repository): removes the record. *)
Definition doc_delete (id : string) : M unit :=
  call (ReqDocDelete id) (λ w, (Ok tt, set_docs (delete id) w)).

(** Modelled from the spec: the query
    [where('user_id', '==', owner).order_by('created_at', DESCENDING)
     .limit(limit).stream()]
    (client library not in the repository): the records whose owner
    matches, ordered by [created_at] descending, capped at [limit]. *)
Definition select (owner : string) (limit : Z) (store : gmap string pydict)
  : list pydict :=
  take (Z.to_nat limit)
       (merge_sort created_desc
          (filter (λ d, owned_by owner d = true) (map_to_list store).*2)).

Definition query (owner : string) (limit : Z) : M (list pydict) :=
  call (ReqQuery owner limit) (λ w, (Ok (select owner limit (docs w)), w)).

End Firestore.

Module Storage.

Definition bucket_name : string := "fy-project-518d9.appspot.com".

(** Modelled from the spec: [blob.public_url] of the storage client (not
    in the repository), the stable public retrieval URL of a path. *)
Definition public_url (path : string) : string :=
  "https://storage.googleapis.com/" +:+ bucket_name +:+ "/" +:+ path.

(** Modelled from the spec: writing bytes to a path of the bucket
    (storage client not in the repository); overwrites silently. *)
Definition put (path content : string) (content_type : option string) : M unit :=
  call (ReqBlobUpload path)
       (λ w, (Ok tt, set_bucket (insert path (Blob content content_type false)) w)).

(** Modelled from the spec: [blob.upload_from_filename(image_path)] of the
    storage client (not in the repository): reads the local file, then
    writes its bytes to the path as [put] does.  The facade gives no
    content type, so the client stores the one guessed from the name of
    the local file, and ["application/octet-stream"] when it can guess
    none. *)
Definition guessed_type (w : world) (image_path : string) : string :=
  default "application/octet-stream" (mimetypes w image_path).

Definition upload_from_filename (path image_path : string) : M unit :=
  λ w, match files w !! image_path with
       | None => (Raise FileNotFoundError, w)
       | Some content => put path content (Some (guessed_type w image_path)) w
       end.

(** Modelled from the spec: [blob.make_public()] (storage client not in
    the repository): marks the object publicly readable. *)
Definition make_public (path : string) : M unit :=
  call (ReqBlobMakePublic path)
       (λ w, match bucket w !! path with
             | None => (Raise NotFound, w)
             | Some b =>
                 (Ok tt, set_bucket
                           (insert path (Blob (blob_content b) (blob_content_type b) true)) w)
             end).

(** Modelled from the spec: [blob.delete()] (storage client not in the
    repository): removes the object; fails when there is none. *)
Definition delete_blob (path : string) : M unit :=
  call (ReqBlobDelete path)
       (λ w, match bucket w !! path with
             | None => (Raise NotFound, w)
             | Some _ => (Ok tt, set_bucket (delete path) w)
             end).

(** [self.bucket.blob(storage_path)]: an object name is a string. *)
Definition blob_name (storage_path : value) : outcome string :=
  match storage_path with
  | VStr s => Ok s
  | _ => Raise TypeError
  end.

End Storage.

Module Auth.

(** Modelled from the spec: credential verification of the identity
    platform (client library not in the repository). *)
Definition verify_id_token (id_token : string) : M pydict :=
  call (ReqVerifyToken id_token)
       (λ w, match sessions w !! id_token with
             | None => (Raise InvalidToken, w)
             | Some decoded => (Ok decoded, w)
             end).

(** Modelled from the spec: profile lookup of the identity platform
    (client library not in the repository). *)
Definition get_user (uid : string) : M account :=
  call (ReqGetUser uid)
       (λ w, match accounts w !! uid with
             | None => (Raise UserNotFound, w)
             | Some a => (Ok a, w)
             end).

(** Modelled from the spec: minting a delegated credential (client
    library not in the repository). *)
Definition create_custom_token (uid : string) : M string :=
  call (ReqCustomToken uid) (λ w, (Ok (signer w uid), w)).

End Auth.

(** [str(uuid.uuid4())]: the next id of the random source. *)
Definition uuid4 : M string :=
  λ w, (Ok (uuid_tape w (uuid_next w)),
        World (docs w) (bucket w) (sessions w) (accounts w) (signer w) (files w)
              (heap w) (now w) (tape w) (sent w) (uuid_tape w) (S (uuid_next w))
              (mimetypes w)).

(** The caller's dictionary object behind a reference. *)
Definition deref (l : nat) : M pydict :=
  λ w, match heap w !! l with
       | Some d => (Ok d, w)
       | None => (Raise TypeError, w)
       end.

(** [obj[k] = v] on the dictionary object behind a reference. *)
Definition setitem (l : nat) (k : string) (v : value) : M unit :=
  λ w, match heap w !! l with
       | Some d => (Ok tt, set_heap (insert l (Py.set d k v)) w)
       | None => (Raise TypeError, w)
       end.

(** [acc = []; for x in xs: acc.append(f x)] for an [f] without effects. *)
Fixpoint collect {A B} (xs : list A) (f : A → outcome B) : outcome (list B) :=
  match xs with
  | [] => Ok []
  | x :: xs' => y ← f x; ys ← collect xs' f; Ok (y :: ys)
  end.

(* ===================================================================== *)
(** ** The facade *)
(* ===================================================================== *)

(** Each method is [try: <method>_try except Exception: ...]; the body of
    the [try] is given a name of its own. *)
Module FirebaseService.

(* ---------------- Authentication ---------------- *)

Definition verify_token_try (id_token : string) : M (option pydict) :=
  decoded_token ← Auth.verify_id_token id_token;
  mret (Some decoded_token).

Definition verify_token (id_token : string) : M (option pydict) :=
  try_except (verify_token_try id_token) (λ e, mret None).

Definition get_user_try (uid : string) : M (option pydict) :=
  user ← Auth.get_user uid;
  mret (Some [("uid", VStr (acc_uid user));
              ("email", acc_email user);
              ("display_name", acc_display_name user);
              ("photo_url", acc_photo_url user);
              ("email_verified", acc_email_verified user)]).

Definition get_user (uid : string) : M (option pydict) :=
  try_except (get_user_try uid) (λ e, mret None).

Definition create_custom_token_try (uid : string) : M (option string) :=
  t ← Auth.create_custom_token uid;
  mret (Some t).

Definition create_custom_token (uid : string) : M (option string) :=
  try_except (create_custom_token_try uid) (λ e, mret None).

(* ---------------- Storage ---------------- *)

Definition upload_image_try (image_path destination_path : string)
  : M (option string) :=
  Storage.upload_from_filename destination_path image_path;;
  Storage.make_public destination_path;;
  mret (Some (Storage.public_url destination_path)).

Definition upload_image (image_path destination_path : string)
  : M (option string) :=
  try_except (upload_image_try image_path destination_path) (λ e, mret None).

Definition upload_image_from_bytes_try
    (image_bytes destination_path : string) (content_type : option string)
  : M (option string) :=
  Storage.put destination_path image_bytes
              (Some (default "image/jpeg" content_type));;
  Storage.make_public destination_path;;
  mret (Some (Storage.public_url destination_path)).

Definition upload_image_from_bytes
    (image_bytes destination_path : string) (content_type : option string)
  : M (option string) :=
  try_except (upload_image_from_bytes_try image_bytes destination_path content_type)
             (λ e, mret None).

Definition delete_image_try (storage_path : value) : M bool :=
  name ← lift (Storage.blob_name storage_path);
  Storage.delete_blob name;;
  mret true.

Definition delete_image (storage_path : value) : M bool :=
  try_except (delete_image_try storage_path) (λ e, mret false).

(* ---------------- Firestore - Presentations ---------------- *)

Definition doc_data (ppt_id user_id : string) (presentation_data : pydict)
    (slide_count : Z) : pydict :=
  [("ppt_id", VStr ppt_id);
   ("user_id", VStr user_id);
   ("topic", Py.get_default presentation_data "topic" (VStr ""));
   ("theme", Py.get_default presentation_data "theme" (VStr "modern"));
   ("slides", Py.get_default presentation_data "slides" (VList []));
   ("slide_count", VInt slide_count);
   ("created_at", VServerTimestamp);
   ("updated_at", VServerTimestamp);
   ("content_sources", Py.get_default presentation_data "content_sources" (VList []));
   ("brand_colors", Py.get presentation_data "brand_colors")].

Definition create_presentation_try (user_id : string) (presentation_data : pydict)
  : M string :=
  ppt_id ← uuid4;
  slide_count ← lift (Py.len (Py.get_default presentation_data "slides" (VList [])));
  Firestore.doc_set ppt_id (doc_data ppt_id user_id presentation_data slide_count);;
  mret ppt_id.

Definition create_presentation (user_id : string) (presentation_data : pydict)
  : M string :=
  try_except (create_presentation_try user_id presentation_data) (λ e, raise e).

Definition get_presentation_try (ppt_id : string) (user_id : option string)
  : M (option pydict) :=
  doc ← Firestore.doc_get ppt_id;
  match doc with
  | None => mret None
  | Some data =>
      if Py.truthy_opt user_id && negb (Py.eq_opt (Py.get data "user_id") user_id)
      then mret None
      else mret (Some data)
  end.

Definition get_presentation (ppt_id : string) (user_id : option string)
  : M (option pydict) :=
  try_except (get_presentation_try ppt_id user_id) (λ e, mret None).

Definition update_presentation_try (ppt_id user_id : string) (updates : nat)
  : M bool :=
  doc ← Firestore.doc_get ppt_id;
  match doc with
  | None => mret false
  | Some data =>
      if negb (Py.eq_str (Py.get data "user_id") user_id)
      then mret false
      else
        setitem updates "updated_at" VServerTimestamp;;
        patch ← deref updates;
        Firestore.doc_update ppt_id patch;;
        mret true
  end.

Definition update_presentation (ppt_id user_id : string) (updates : nat)
  : M bool :=
  try_except (update_presentation_try ppt_id user_id updates) (λ e, mret false).

(** The body of the loop over the slides of a record to delete. *)
Definition delete_slide_image (slide : value) : M unit :=
  p ← lift (Py.value_get slide "image_storage_path");
  if Py.truthy p
  then
    path ← lift (Py.value_getitem slide "image_storage_path");
    delete_image path;;
    mret tt
  else mret tt.

Definition delete_presentation_try (ppt_id user_id : string) : M bool :=
  doc ← Firestore.doc_get ppt_id;
  match doc with
  | None => mret false
  | Some data =>
      if negb (Py.eq_str (Py.get data "user_id") user_id)
      then mret false
      else
        slides ← lift (Py.iter (Py.get_default data "slides" (VList [])));
        for_each slides delete_slide_image;;
        Firestore.doc_delete ppt_id;;
        mret true
  end.

Definition delete_presentation (ppt_id user_id : string) : M bool :=
  try_except (delete_presentation_try ppt_id user_id) (λ e, mret false).

(** [data.get('slides', [{}])[0].get('image_url') if data.get('slides') else None] *)
Definition thumbnail (data : pydict) : outcome value :=
  if Py.truthy (Py.get data "slides")
  then
    slide ← Py.first (Py.get_default data "slides" (VList [VDict []]));
    Py.value_get slide "image_url"
  else Ok VNone.

(** The summary of one record, without the slide content. *)
Definition summary (data : pydict) : outcome pydict :=
  thumb ← thumbnail data;
  Ok [("ppt_id", Py.get data "ppt_id");
      ("topic", Py.get data "topic");
      ("theme", Py.get data "theme");
      ("slide_count", Py.get_default data "slide_count" (VInt 0));
      ("created_at", Py.get data "created_at");
      ("updated_at", Py.get data "updated_at");
      ("thumbnail", thumb)].

Definition get_user_presentations_try (user_id : string) (limit : option Z)
  : M (list pydict) :=
  docs ← Firestore.query user_id (default 50%Z limit);
  presentations ← lift (collect docs summary);
  mret presentations.

Definition get_user_presentations (user_id : string) (limit : option Z)
  : M (list pydict) :=
  try_except (get_user_presentations_try user_id limit) (λ e, mret []).

End FirebaseService.

(* ===================================================================== *)
(** ** Notions the properties are stated with *)
(* ===================================================================== *)

(** The fate of the [i]-th request from now. *)
Definition fate_at (w : world) (i : nat) : fate :=
  nth i (tape w) (Fate 0 false).

(** A stored record carries a resolved [updated_at] that is not in the
    future of the server clock. *)
Definition stamped (clock : nat) (d : pydict) : bool :=
  match Py.lookup d "updated_at" with
  | Some (VTime t) => t <=? clock
  | _ => false
  end.

Definition stamps_ok (w : world) : Prop :=
  map_Forall (λ _ d, stamped (now w) d = true) (docs w).

(** [uuid4] never returns the same id twice. *)
Definition uuid_unique (w : world) : Prop :=
  ∀ i j, uuid_tape w i = uuid_tape w j → i = j.

(** A slide as the data model has it: a mapping whose
    [image_storage_path], when there is one, is a path or [None]. *)
Definition slide_ok (slide : value) : Prop :=
  match slide with
  | VDict d =>
      match Py.lookup d "image_storage_path" with
      | None | Some VNone | Some (VStr _) => True
      | Some _ => False
      end
  | _ => False
  end.

(** The storage path a slide carries, if any. *)
Definition asset_path (slide : value) : option string :=
  match slide with
  | VDict d =>
      match Py.lookup d "image_storage_path" with
      | Some (VStr s) => if String.eqb s "" then None else Some s
      | _ => None
      end
  | _ => None
  end.

Definition asset_paths (slides : list value) : list string :=
  omap asset_path slides.

(** [m] is [body] with every exception replaced by [sentinel]. *)
Definition swallows {A} (m body : M A) (sentinel : A) : Prop :=
  ∀ w, m w = match body w with
             | (Ok a, w') => (Ok a, w')
             | (Raise _, w') => (Ok sentinel, w')
             end.

(** [m] is [body] with every exception passed on to the caller. *)
Definition propagates {A} (m body : M A) : Prop :=
  ∀ w, m w = body w.

(** The calls a client of the facade can make, and the world after one. *)
Inductive op : Type :=
| OpVerifyToken (id_token : string)
| OpGetUser (uid : string)
| OpCreateCustomToken (uid : string)
| OpUploadImage (image_path destination_path : string)
| OpUploadImageFromBytes (image_bytes destination_path : string)
                         (content_type : option string)
| OpDeleteImage (storage_path : value)
| OpCreatePresentation (user_id : string) (presentation_data : pydict)
| OpGetPresentation (ppt_id : string) (user_id : option string)
| OpUpdatePresentation (ppt_id user_id : string) (updates : nat)
| OpDeletePresentation (ppt_id user_id : string)
| OpGetUserPresentations (user_id : string) (limit : option Z).

Definition exec (o : op) (w : world) : world :=
  match o with
  | OpVerifyToken t => (FirebaseService.verify_token t w).2
  | OpGetUser u => (FirebaseService.get_user u w).2
  | OpCreateCustomToken u => (FirebaseService.create_custom_token u w).2
  | OpUploadImage i d => (FirebaseService.upload_image i d w).2
  | OpUploadImageFromBytes b d c => (FirebaseService.upload_image_from_bytes b d c w).2
  | OpDeleteImage p => (FirebaseService.delete_image p w).2
  | OpCreatePresentation u d => (FirebaseService.create_presentation u d w).2
  | OpGetPresentation i u => (FirebaseService.get_presentation i u w).2
  | OpUpdatePresentation i u l => (FirebaseService.update_presentation i u l w).2
  | OpDeletePresentation i u => (FirebaseService.delete_presentation i u w).2
  | OpGetUserPresentations u l => (FirebaseService.get_user_presentations u l w).2
  end.

(** Worlds reached from an empty collection through the facade. *)
Inductive reachable : world → Prop :=
| reachable_init w : docs w = ∅ → reachable w
| reachable_step o w : reachable w → reachable (exec o w).

(** A world to run examples in: nothing stored, a platform that serves
    every request at once, ids ["0"], ["1"], ... *)
Definition quiet : world :=
  World ∅ ∅ ∅ ∅ (λ uid, "token:" +:+ uid) ∅ ∅ 0 [] [] pretty 0 (λ _, None).

Definition set_tape (t : list fate) (w : world) : world :=
  World (docs w) (bucket w) (sessions w) (accounts w) (signer w) (files w)
        (heap w) (now w) t (sent w) (uuid_tape w) (uuid_next w) (mimetypes w).

(** Request data for a presentation of two slides, the first with a stored
    image; it also tries to name its own owner and id. *)
Definition deck : pydict :=
  [("topic", VStr "Tides");
   ("slides", VList [VDict [("image_url", VStr "https://img/1");
                            ("image_storage_path", VStr "users/alice/images/1.jpg")];
                     VDict [("title", VStr "Outline")]]);
   ("user_id", VStr "mallory");
   ("ppt_id", VStr "chosen")].

(** The world after alice has created [deck], and the record stored. *)
Definition shelf : world :=
  (FirebaseService.create_presentation "alice" deck quiet).2.

Definition tides : pydict :=
  Firestore.stamp 0 (FirebaseService.doc_data "0" "alice" deck 2).

(** [shelf] with a patch dictionary at reference 7 and a slow platform. *)
Definition desk : world :=
  set_tape [Fate 3 false; Fate 4 false]
           (set_heap (insert 7 [("slides", VList [])]) shelf).

(** [shelf] with a platform that fails the second request. *)
Definition stormy : world :=
  set_tape [Fate 1 false; Fate 2 true; Fate 1 false] shelf.

(** Three presentations, created one time unit apart by alice, bob, alice. *)
Definition library : world :=
  let w0 := set_tape [Fate 1 false; Fate 1 false; Fate 1 false] quiet in
  let w1 := (FirebaseService.create_presentation "alice" deck w0).2 in
  let w2 := (FirebaseService.create_presentation "bob" [("topic", VStr "Bees")] w1).2 in
  (FirebaseService.create_presentation "alice" [("topic", VStr "Moons")] w2).2.

(** The clock has not gone back, and every record is either as it was or
    freshly stamped. *)
Definition grows (w w' : world) : Prop :=
  now w ≤ now w' ∧
  map_Forall (λ id d, docs w !! id = Some d ∨ stamped (now w') d = true) (docs w').

(** A computation that only ever moves the world that way. *)
Definition steady {A} (m : M A) : Prop := ∀ w, grows w (m w).2.

Definition never_raises {A} (m : M A) : Prop :=
  ∀ w, ∃ a, (m w).1 = Ok a.

(** When the platform fails the first request, [m] returns [sentinel]. *)
Definition sentinel_on_failure {A} (m : M A) (sentinel : A) : Prop :=
  ∀ w, fails (next_fate w) = true → (m w).1 = Ok sentinel.

(* ===================================================================== *)
(** ** Construction of the service *)
(* ===================================================================== *)

(** The state [FirebaseService()] works on: the two class attributes, the
    attributes of the one instance, and what [_initialize_firebase] looks
    at. *)
Record process := Process {
  instance : option nat;        (* [_instance], by the identity of the object *)
  initialized : bool;           (* [_initialized] *)
  db : bool;                    (* whether [self.db] holds a client *)
  bucket_handle : option string;(* [self.bucket], by the name of the bucket *)
  apps : nat;                   (* [len(firebase_admin._apps)] *)
  key_exists : bool;            (* [os.path.exists(service_key_path)] *)
  key_accepted : bool;          (* whether the platform takes the credential *)
  next_object : nat             (* identity of the next object allocated *)
}.

Module Startup.

(** [__new__]: the instance there is, or a new one that is kept. *)
Definition new (p : process) : nat * process :=
  match instance p with
  | Some o => (o, p)
  | None =>
      (next_object p,
       Process (Some (next_object p)) (initialized p) (db p) (bucket_handle p)
               (apps p) (key_exists p) (key_accepted p) (S (next_object p)))
  end.

(** [self.db = firestore.client(); self.bucket = storage.bucket(...)].
    Modelled from the spec: obtaining the two handles (the SDK is not part
    of the repository) succeeds once an app is registered. *)
Definition connect (p : process) : process :=
  Process (instance p) (initialized p) true (Some Storage.bucket_name)
          (apps p) (key_exists p) (key_accepted p) (next_object p).

(** Modelled from the spec: [credentials.Certificate] and
    [firebase_admin.initialize_app] (the SDK is not part of the
    repository): the platform takes the credential and registers the app,
    or rejects it. *)
Definition initialize_app (p : process) : outcome unit * process :=
  if key_accepted p
  then (Ok tt,
        Process (instance p) (initialized p) (db p) (bucket_handle p)
                (S (apps p)) (key_exists p) (key_accepted p) (next_object p))
  else (Raise BackendError, p).

Definition initialize_firebase_try (p : process) : outcome unit * process :=
  if 0 <? apps p
  then (Ok tt, connect p)
  else if negb (key_exists p)
       then (Raise FileNotFoundError, p)
       else match initialize_app p with
            | (Ok _, p') => (Ok tt, connect p')
            | (Raise e, p') => (Raise e, p')
            end.

(** [_initialize_firebase]: the handler logs and raises again. *)
Definition initialize_firebase (p : process) : outcome unit * process :=
  match initialize_firebase_try p with
  | (Ok a, p') => (Ok a, p')
  | (Raise e, p') => (Raise e, p')
  end.

Definition set_initialized (p : process) : process :=
  Process (instance p) true (db p) (bucket_handle p)
          (apps p) (key_exists p) (key_accepted p) (next_object p).

(** [__init__] *)
Definition init (p : process) : outcome unit * process :=
  if negb (initialized p)
  then match initialize_firebase p with
       | (Ok _, p') => (Ok tt, set_initialized p')
       | (Raise e, p') => (Raise e, p')
       end
  else (Ok tt, p).

(** [FirebaseService()]: [__new__], then [__init__] on what it returned. *)
Definition construct (p : process) : outcome nat * process :=
  let (o, p1) := new p in
  match init p1 with
  | (Ok _, p2) => (Ok o, p2)
  | (Raise e, p2) => (Raise e, p2)
  end.

End Startup.

(** The same process with another state of the service key. *)
Definition with_key (key_exists key_accepted : bool) (p : process) : process :=
  Process (instance p) (initialized p) (db p) (bucket_handle p) (apps p)
          key_exists key_accepted (next_object p).

(** A process in which nothing has been constructed yet. *)
Definition fresh (key_exists key_accepted : bool) : process :=
  Process None false false None 0 key_exists key_accepted 0.

(* ===================================================================== *)
(** ** Further notions *)
(* ===================================================================== *)

(** Every id under which a record is stored was handed out by [uuid4]. *)
Definition ids_issued (w : world) : Prop :=
  ∀ id, is_Some (docs w !! id) → id ∈ issued w.

(** What is stored, on the platform and with the caller, is the same in
    both worlds; the clock, the tape and the log of requests may differ. *)
Definition same_stores (w w' : world) : Prop :=
  docs w' = docs w ∧ bucket w' = bucket w ∧ heap w' = heap w ∧
  sessions w' = sessions w ∧ accounts w' = accounts w ∧ files w' = files w.

(** A world with a local image file, a signed-in user and her account. *)
Definition studio : world :=
  World ∅ ∅ {["tok-alice" := [("uid", VStr "alice")]]}
        {["alice" := Account "alice" (VStr "alice@example.org") (VStr "Alice")
                             VNone (VBool true)]}
        (λ uid, "token:" +:+ uid)
        {["/tmp/1.jpg" := "JFIF"]} ∅ 0 [] [] pretty 0
        (λ name, if String.eqb name "/tmp/1.jpg" then Some "image/jpeg" else None).

(** The platform serves the next [n] requests. *)
Definition served (w : world) (n : nat) : Prop :=
  ∀ i, i < n → fails (fate_at w i) = false.

(** No id is forgotten, and every record is stored under an id that had a
    record before or that [uuid4] has handed out. *)
Definition extends (w w' : world) : Prop :=
  issued w ⊆ issued w' ∧
  ∀ id, is_Some (docs w' !! id) → is_Some (docs w !! id) ∨ id ∈ issued w'.

(** A computation that only ever moves the world that way. *)
Definition orderly {A} (m : M A) : Prop := ∀ w, extends w (m w).2.

(** [shelf] with two images in the bucket, one of them the first slide's. *)
Definition archive : world :=
  set_bucket (λ _, {["users/alice/images/1.jpg" := Blob "JFIF" None true;
                     "logo.png" := Blob "PNG" None true]}) shelf.

(* ===================================================================== *)
(** ** Dictionaries *)
(* ===================================================================== *)

Import FirebaseService.

Ltac unfold_monad :=
  unfold try_except, mbind, M_bind, bind, mret, M_ret, ret, raise, lift, call in *.

Section dictionaries.
Implicit Types (d old patch : pydict) (k : string) (v : value).

Lemma lookup_set_eq d k v : Py.lookup (Py.set d k v) k = Some v.
Proof.
  induction d as [|[k' v'] d IH]; simpl.
  - by rewrite String.eqb_refl.
  - destruct (String.eqb k' k) eqn:E; simpl; by rewrite E.
Qed.

Lemma lookup_set_ne d k k' v :
  k ≠ k' → Py.lookup (Py.set d k v) k' = Py.lookup d k'.
Proof.
  intros Hne. induction d as [|[k0 v0] d IH]; simpl.
  - by apply String.eqb_neq in Hne as ->.
  - destruct (String.eqb k0 k) eqn:E; simpl; [|by rewrite IH].
    apply String.eqb_eq in E as ->.
    by apply String.eqb_neq in Hne as ->.
Qed.

Lemma lookup_None_keys d k : Py.lookup d k = None ↔ k ∉ Py.keys d.
Proof.
  unfold Py.keys. induction d as [|[k' v'] d IH]; simpl.
  - split; [intros _; apply not_elem_of_nil | done].
  - rewrite not_elem_of_cons. destruct (String.eqb k' k) eqn:E.
    + apply String.eqb_eq in E as ->. split; [done | by intros [? _]].
    + apply String.eqb_neq in E. rewrite IH. naive_solver.
Qed.

Lemma lookup_stamp t d k :
  Py.lookup (Firestore.stamp t d) k = Firestore.resolve t <$> Py.lookup d k.
Proof.
  unfold Firestore.stamp. induction d as [|[k' v'] d IH]; simpl; [done|].
  by destruct (String.eqb k' k).
Qed.

Lemma keys_stamp t d : Py.keys (Firestore.stamp t d) = Py.keys d.
Proof.
  unfold Py.keys, Firestore.stamp. rewrite <- list_fmap_compose.
  by apply list_fmap_ext.
Qed.

Lemma lookup_merge_keys old patch ks k :
  Py.lookup (foldl (λ acc k, Py.set acc k (Py.get patch k)) old ks) k =
    if bool_decide (k ∈ ks) then Some (Py.get patch k) else Py.lookup old k.
Proof.
  revert old. induction ks as [|k0 ks IH]; intros old; simpl; [done|].
  rewrite IH. destruct (decide (k = k0)) as [->|Hne].
  - rewrite lookup_set_eq. rewrite (bool_decide_eq_true_2 (k0 ∈ k0 :: ks)); [|left].
    by case_bool_decide.
  - rewrite lookup_set_ne by done.
    case_bool_decide as H1; case_bool_decide as H2; try done.
    + exfalso. apply H2. by right.
    + apply elem_of_cons in H2 as [?|?]; done.
Qed.

(** The merge is a shallow overwrite: a field of the patch replaces the
    stored one, any other stored field stays. *)
Lemma lookup_merge old patch k :
  Py.lookup (Firestore.merge old patch) k =
    match Py.lookup patch k with
    | Some v => Some v
    | None => Py.lookup old k
    end.
Proof.
  unfold Firestore.merge. rewrite lookup_merge_keys.
  case_bool_decide as H.
  - destruct (Py.lookup patch k) eqn:E.
    + unfold Py.get. by rewrite E.
    + by apply lookup_None_keys in E.
  - apply lookup_None_keys in H. by rewrite H.
Qed.

Lemma eq_str_true v s : Py.eq_str v s = true ↔ v = VStr s.
Proof.
  destruct v; simpl; try (split; [done | discriminate]).
  rewrite String.eqb_eq. split; congruence.
Qed.

Lemma eq_str_false v s : Py.eq_str v s = false ↔ v ≠ VStr s.
Proof. rewrite <- eq_str_true. by destruct (Py.eq_str v s). Qed.

End dictionaries.

(* ===================================================================== *)
(** ** What each presentation method does, step by step *)
(* ===================================================================== *)

Lemma fate_at_0 w : fate_at w 0 = next_fate w.
Proof. unfold fate_at, next_fate. by destruct (tape w). Qed.

Lemma next_fate_drop w w' n :
  tape w' = drop n (tape w) → next_fate w' = fate_at w n.
Proof.
  unfold next_fate, fate_at. intros ->.
  generalize (tape w). induction n as [|n IH]; intros [|f l]; simpl; auto.
Qed.

Lemma next_fate_sending r w : next_fate (sending r w) = fate_at w 1.
Proof. unfold next_fate, fate_at. simpl. by destruct (tape w) as [|? [|? ?]]. Qed.

Lemma get_presentation_run ppt_id user_id w :
  get_presentation ppt_id user_id w =
    (Ok (if fails (next_fate w) then None
         else match docs w !! ppt_id with
              | None => None
              | Some data =>
                  if Py.truthy_opt user_id
                     && negb (Py.eq_opt (Py.get data "user_id") user_id)
                  then None else Some data
              end),
     sending (ReqDocGet ppt_id) w).
Proof.
  unfold get_presentation, get_presentation_try, Firestore.doc_get. unfold_monad.
  destruct (fails (next_fate w)); [done|]. simpl.
  destruct (docs w !! ppt_id) as [data|]; [|done].
  by destruct (_ && _).
Qed.

Lemma update_presentation_run ppt_id user_id updates w :
  update_presentation ppt_id user_id updates w =
    let w1 := sending (ReqDocGet ppt_id) w in
    if fails (next_fate w) then (Ok false, w1)
    else match docs w !! ppt_id with
         | None => (Ok false, w1)
         | Some data =>
             if negb (Py.eq_str (Py.get data "user_id") user_id)
             then (Ok false, w1)
             else match heap w !! updates with
                  | None => (Ok false, w1)
                  | Some p =>
                      let p' := Py.set p "updated_at" VServerTimestamp in
                      let w2 := set_heap (insert updates p') w1 in
                      let w3 := sending (ReqDocUpdate ppt_id) w2 in
                      if fails (fate_at w 1) then (Ok false, w3)
                      else (Ok true,
                            set_docs (insert ppt_id
                                        (Firestore.merge data (Firestore.stamp (now w3) p')))
                                     w3)
                  end
         end.
Proof.
  unfold update_presentation, update_presentation_try, Firestore.doc_get,
    Firestore.doc_update, setitem, deref. unfold_monad.
  destruct (fails (next_fate w)); [done|]. simpl.
  destruct (docs w !! ppt_id) as [data|] eqn:E; [|done].
  destruct (negb _); [done|]. simpl.
  destruct (heap w !! updates) as [p|]; [|done]. simpl.
  rewrite lookup_insert_eq. simpl.
  replace (next_fate _) with (fate_at w 1).
  2:{ unfold next_fate, fate_at. simpl. by destruct (tape w) as [|? [|? ?]]. }
  destruct (fails (fate_at w 1)); [done|].
  by rewrite E.
Qed.

Lemma create_presentation_run user_id presentation_data w :
  create_presentation user_id presentation_data w =
    let ppt_id := uuid_tape w (uuid_next w) in
    let w1 := (uuid4 w).2 in
    match Py.len (Py.get_default presentation_data "slides" (VList [])) with
    | Raise e => (Raise e, w1)
    | Ok n =>
        let w2 := sending (ReqDocSet ppt_id) w1 in
        if fails (next_fate w) then (Raise BackendError, w2)
        else (Ok ppt_id,
              set_docs (insert ppt_id
                          (Firestore.stamp (now w2)
                             (doc_data ppt_id user_id presentation_data n)))
                       w2)
    end.
Proof.
  unfold create_presentation, create_presentation_try, Firestore.doc_set, uuid4.
  unfold_monad. simpl.
  destruct (Py.len _) as [n|e]; [|done]. simpl.
  change (next_fate _) with (next_fate w).
  by destruct (fails (next_fate w)).
Qed.

(** What a successful update did. *)
Lemma update_presentation_true ppt_id user_id updates w w' :
  update_presentation ppt_id user_id updates w = (Ok true, w') →
  ∃ old patch,
    docs w !! ppt_id = Some old ∧
    heap w !! updates = Some patch ∧
    docs w' =
      <[ppt_id := Firestore.merge old
                    (Firestore.stamp (now w')
                       (Py.set patch "updated_at" VServerTimestamp))]> (docs w).
Proof.
  rewrite update_presentation_run. cbv zeta.
  destruct (fails (next_fate w)); [discriminate|].
  destruct (docs w !! ppt_id) as [old|]; [|discriminate].
  destruct (negb _); [discriminate|].
  destruct (heap w !! updates) as [patch|]; [|discriminate].
  destruct (fails (fate_at w 1)); [discriminate|].
  intros [= <-]. by exists old, patch.
Qed.

(* ===================================================================== *)
(** ** Timestamps stay in order *)
(* ===================================================================== *)

Lemma stamped_mono t t' d : t ≤ t' → stamped t d = true → stamped t' d = true.
Proof.
  unfold stamped. intros Hle. destruct (Py.lookup d "updated_at") as [[]|]; try done.
  rewrite !Nat.leb_le. lia.
Qed.

Lemma stamped_lookup clock d :
  stamped clock d = true ↔
  ∃ t, Py.lookup d "updated_at" = Some (VTime t) ∧ t ≤ clock.
Proof.
  unfold stamped. destruct (Py.lookup d "updated_at") as [[]|];
    try (split; [done | by intros (? & ? & ?)]).
  rewrite Nat.leb_le. split; [eauto | by intros (? & [= <-] & ?)].
Qed.

Section steady.

Lemma grows_refl w : grows w w.
Proof. split; [done|]. intros id d Hd. by left. Qed.

Lemma grows_trans w1 w2 w3 : grows w1 w2 → grows w2 w3 → grows w1 w3.
Proof.
  intros [Hc1 Hd1] [Hc2 Hd2]. split; [lia|].
  intros id d Hd. destruct (Hd2 id d Hd) as [Hsame|Hnew]; [|by right].
  destruct (Hd1 id d Hsame) as [Hsame'|Hnew]; [by left|].
  right. by apply (stamped_mono (now w2)).
Qed.

Lemma grows_stamps_ok w w' : stamps_ok w → grows w w' → stamps_ok w'.
Proof.
  intros Hok [Hc Hd] id d Hdoc. destruct (Hd id d Hdoc) as [Hsame|Hnew]; [|done].
  apply (stamped_mono (now w)); [done|]. by apply (Hok id).
Qed.

Lemma grows_sending r w : grows w (sending r w).
Proof. split; [simpl; lia|]. intros id d Hd. by left. Qed.

Lemma grows_set_heap f w : grows w (set_heap f w).
Proof. split; [done|]. intros id d Hd. by left. Qed.

Lemma grows_set_bucket f w : grows w (set_bucket f w).
Proof. split; [done|]. intros id d Hd. by left. Qed.

Lemma grows_delete id w : grows w (set_docs (delete id) w).
Proof.
  split; [done|]. intros id' d Hd. left.
  simpl in Hd. by apply lookup_delete_Some in Hd as [_ ?].
Qed.

Lemma grows_insert id d w :
  stamped (now w) d = true → grows w (set_docs (insert id d) w).
Proof.
  intros Hst. split; [done|]. intros id' d' Hd. simpl in Hd.
  apply lookup_insert_Some in Hd as [[_ <-]|[_ ?]]; [by right | by left].
Qed.

Lemma steady_ret {A} (a : A) : steady (mret a : M A).
Proof. intros w. apply grows_refl. Qed.

Lemma steady_raise {A} e : steady (raise e : M A).
Proof. intros w. apply grows_refl. Qed.

Lemma steady_lift {A} (o : outcome A) : steady (lift o).
Proof. intros w. apply grows_refl. Qed.

Lemma steady_bind {A B} (m : M A) (k : A → M B) :
  steady m → (∀ a, steady (k a)) → steady (m ≫= k).
Proof.
  intros Hm Hk w. unfold mbind, M_bind, bind.
  specialize (Hm w). destruct (m w) as [[a|e] w1]; [|done].
  eapply grows_trans; [done | apply Hk].
Qed.

Lemma steady_try {A} (body : M A) handler :
  steady body → (∀ e, steady (handler e)) → steady (try_except body handler).
Proof.
  intros Hm Hh w. unfold try_except.
  specialize (Hm w). destruct (body w) as [[a|e] w1]; [done|].
  eapply grows_trans; [done | apply Hh].
Qed.

Lemma steady_call {A} r (serve : M A) : steady serve → steady (call r serve).
Proof.
  intros Hs w. unfold call. destruct (fails (next_fate w)).
  - apply grows_sending.
  - eapply grows_trans; [apply grows_sending | apply Hs].
Qed.

Lemma steady_for_each {A} (xs : list A) body :
  (∀ x, steady (body x)) → steady (for_each xs body).
Proof.
  intros Hb. induction xs as [|x xs IH]; simpl.
  - apply steady_ret.
  - apply steady_bind; [apply Hb | done].
Qed.

End steady.

Create HintDb steady discriminated.
#[local] Hint Resolve steady_ret steady_raise steady_lift steady_bind steady_try
  steady_call steady_for_each : steady.

Lemma steady_doc_get id : steady (Firestore.doc_get id).
Proof. apply steady_call. intros w. apply grows_refl. Qed.

Lemma steady_doc_delete id : steady (Firestore.doc_delete id).
Proof. apply steady_call. intros w. apply grows_delete. Qed.

Lemma steady_doc_set id data :
  Py.lookup data "updated_at" = Some VServerTimestamp →
  steady (Firestore.doc_set id data).
Proof.
  intros Hdata. apply steady_call. intros w. apply grows_insert.
  unfold stamped. rewrite lookup_stamp, Hdata. simpl. by apply Nat.leb_le.
Qed.

Lemma steady_query owner limit : steady (Firestore.query owner limit).
Proof. apply steady_call. intros w. apply grows_refl. Qed.

Lemma steady_put path content ct : steady (Storage.put path content ct).
Proof. apply steady_call. intros w. apply grows_set_bucket. Qed.

Lemma steady_upload_from_filename path image_path :
  steady (Storage.upload_from_filename path image_path).
Proof.
  intros w. unfold Storage.upload_from_filename.
  destruct (files w !! image_path); [apply steady_put | apply grows_refl].
Qed.

Lemma steady_make_public path : steady (Storage.make_public path).
Proof.
  apply steady_call. intros w. simpl.
  destruct (bucket w !! path); [apply grows_set_bucket | apply grows_refl].
Qed.

Lemma steady_delete_blob path : steady (Storage.delete_blob path).
Proof.
  apply steady_call. intros w. simpl.
  destruct (bucket w !! path); [apply grows_set_bucket | apply grows_refl].
Qed.

Lemma steady_verify_id_token t : steady (Auth.verify_id_token t).
Proof.
  apply steady_call. intros w. simpl. destruct (sessions w !! t); apply grows_refl.
Qed.

Lemma steady_auth_get_user u : steady (Auth.get_user u).
Proof.
  apply steady_call. intros w. simpl. destruct (accounts w !! u); apply grows_refl.
Qed.

Lemma steady_auth_create_custom_token u : steady (Auth.create_custom_token u).
Proof. apply steady_call. intros w. apply grows_refl. Qed.

Lemma steady_uuid4 : steady uuid4.
Proof. intros w. split; [done|]. intros id d Hd. by left. Qed.

#[local] Hint Resolve steady_doc_get steady_doc_delete steady_query steady_put
  steady_upload_from_filename steady_make_public steady_delete_blob
  steady_verify_id_token steady_auth_get_user steady_auth_create_custom_token
  steady_uuid4 : steady.

Lemma steady_delete_image p : steady (delete_image p).
Proof. unfold delete_image, delete_image_try. auto 10 with steady. Qed.

#[local] Hint Resolve steady_delete_image : steady.

Lemma steady_delete_slide_image slide : steady (delete_slide_image slide).
Proof.
  unfold delete_slide_image. apply steady_bind; [auto with steady|].
  intros p. destruct (Py.truthy p); auto 10 with steady.
Qed.

#[local] Hint Resolve steady_delete_slide_image : steady.

Lemma steady_update_presentation ppt_id user_id updates :
  steady (update_presentation ppt_id user_id updates).
Proof.
  intros w. rewrite update_presentation_run. cbv zeta.
  destruct (fails (next_fate w)); [apply grows_sending|].
  destruct (docs w !! ppt_id) as [old|]; [|apply grows_sending].
  destruct (negb _); [apply grows_sending|].
  destruct (heap w !! updates) as [patch|]; [|apply grows_sending].
  eapply grows_trans; [apply grows_sending|].
  eapply grows_trans; [apply grows_set_heap|].
  eapply grows_trans; [apply grows_sending|].
  destruct (fails (fate_at w 1)); simpl; [apply grows_refl|].
  apply grows_insert. unfold stamped.
  rewrite lookup_merge, lookup_stamp, lookup_set_eq. simpl. by apply Nat.leb_le.
Qed.

(** Every call of the facade keeps the clock and the stamps in order. *)
Lemma exec_grows o w : grows w (exec o w).
Proof.
  destruct o; simpl.
  - apply (steady_try _ _); auto with steady.
    unfold verify_token_try. auto with steady.
  - apply (steady_try _ _); auto with steady.
    unfold get_user_try. auto with steady.
  - apply (steady_try _ _); auto with steady.
    unfold create_custom_token_try. auto with steady.
  - apply (steady_try _ _); auto with steady.
    unfold upload_image_try. auto 10 with steady.
  - apply (steady_try _ _); auto with steady.
    unfold upload_image_from_bytes_try. auto 10 with steady.
  - apply steady_delete_image.
  - apply (steady_try _ _); auto with steady. unfold create_presentation_try.
    apply steady_bind; [auto with steady|]. intros id.
    apply steady_bind; [auto with steady|]. intros n.
    apply steady_bind; [|auto with steady]. by apply steady_doc_set.
  - apply (steady_try _ _); auto with steady. unfold get_presentation_try.
    apply steady_bind; [auto with steady|]. intros [data|]; [|auto with steady].
    destruct (_ && _); auto with steady.
  - apply steady_update_presentation.
  - apply (steady_try _ _); auto with steady. unfold delete_presentation_try.
    apply steady_bind; [auto with steady|]. intros [data|]; [|auto with steady].
    destruct (negb _); auto 10 with steady.
  - apply (steady_try _ _); auto with steady. unfold get_user_presentations_try.
    auto 10 with steady.
Qed.

Lemma stamps_ok_exec o w : stamps_ok w → stamps_ok (exec o w).
Proof. intros Hok. eapply grows_stamps_ok; [done | apply exec_grows]. Qed.

(** X22.  Every world the facade can bring about from an empty collection
    has its records stamped, none in the future of the server clock. *)
Theorem reachable_stamps_ok w : reachable w → stamps_ok w.
Proof.
  induction 1 as [w Hempty | o w _ IH].
  - unfold stamps_ok. rewrite Hempty. apply map_Forall_empty.
  - by apply stamps_ok_exec.
Qed.

Lemma stamps_ok_desk : stamps_ok desk.
Proof.
  unfold stamps_ok. apply (bool_decide_unpack _). vm_compute. reflexivity.
Qed.

(* ===================================================================== *)
(** ** Reading a presentation *)
(* ===================================================================== *)

(** C1.  For a non-empty requester id, [get_presentation] answers [None]
    both in a world where no record is stored under the id and in a world
    where a record is stored under it whose [user_id] is not the requester:
    the two cases give the caller the same response. *)
Theorem get_presentation_indistinguishable
    (w1 w2 : world) (ppt_id requester_id : string) (data : pydict) :
  requester_id ≠ "" →
  docs w1 !! ppt_id = None →
  docs w2 !! ppt_id = Some data →
  Py.get data "user_id" ≠ VStr requester_id →
  (get_presentation ppt_id (Some requester_id) w1).1 = Ok None ∧
  (get_presentation ppt_id (Some requester_id) w2).1 = Ok None.
Proof.
  intros Hreq Habsent Hstored Hother. rewrite !get_presentation_run. simpl.
  rewrite Habsent, Hstored. apply eq_str_false in Hother. rewrite Hother.
  apply String.eqb_neq in Hreq. rewrite Hreq. simpl.
  split; by destruct (fails _).
Qed.

Lemma get_presentation_indistinguishable_witness :
  (get_presentation "0" (Some "bob") quiet).1 = Ok None ∧
  (get_presentation "0" (Some "bob") shelf).1 = Ok None.
Proof.
  apply (get_presentation_indistinguishable quiet shelf "0" "bob" tides).
  - discriminate.
  - reflexivity.
  - vm_compute. reflexivity.
  - vm_compute. discriminate.
Defined.

(** C8.  When the requester id is [None] or the empty string,
    [get_presentation] makes no ownership comparison: it returns the stored
    record, whoever owns it, as soon as the read is served. *)
Theorem get_presentation_without_requester
    (w : world) (ppt_id : string) (requester_id : option string) (data : pydict) :
  requester_id = None ∨ requester_id = Some "" →
  docs w !! ppt_id = Some data →
  fails (next_fate w) = false →
  (get_presentation ppt_id requester_id w).1 = Ok (Some data).
Proof.
  intros Hfalsy Hstored Hserved. rewrite get_presentation_run. simpl.
  rewrite Hserved, Hstored. by destruct Hfalsy as [-> | ->].
Qed.

Lemma get_presentation_without_requester_witness :
  Py.lookup tides "user_id" = Some (VStr "alice") ∧
  (get_presentation "0" (Some "") shelf).1 = Ok (Some tides).
Proof.
  split; [reflexivity|].
  apply (get_presentation_without_requester shelf "0" (Some "") tides).
  - by right.
  - vm_compute. reflexivity.
  - reflexivity.
Defined.

(* ===================================================================== *)
(** ** Creating a presentation *)
(* ===================================================================== *)

Lemma issued_fresh w :
  uuid_unique w → uuid_tape w (uuid_next w) ∉ issued w.
Proof.
  intros Huniq Hin. unfold issued in Hin.
  apply list_elem_of_fmap in Hin as (i & Heq & Hi).
  apply Huniq in Heq. subst i.
  apply elem_of_seq in Hi. lia.
Qed.

Lemma issued_uuid4 w :
  issued (uuid4 w).2 = issued w ++ [uuid_tape w (uuid_next w)].
Proof.
  unfold issued, uuid4. cbn [snd uuid_next uuid_tape].
  by rewrite seq_S, fmap_app.
Qed.

Lemma uuid_unique_quiet : uuid_unique quiet.
Proof. intros i j H. by apply (inj pretty). Qed.

(** C2.  Let the request data hold a list of N slides under ['slides'].
    Then [create_presentation] succeeds whenever the platform serves the
    write, and every successful call returns the id [uuid4] generated for
    it, never issued before when [uuid4] is a source that does not repeat;
    under that id the collection now holds a record whose [ppt_id] is the
    id, whose [slide_count] is N, whose [topic] and [theme] are those of
    the request and default to the empty string and to ["modern"], and
    whose [created_at] and [updated_at] are both the server's time of the
    write. *)
Theorem create_presentation_record
    (w : world) (owner_id : string) (data : pydict) (slides : list value) :
  Py.lookup data "slides" = Some (VList slides) →
  (fails (next_fate w) = false →
   ∃ ppt_id w', create_presentation owner_id data w = (Ok ppt_id, w')) ∧
  (∀ ppt_id w',
     create_presentation owner_id data w = (Ok ppt_id, w') →
     (uuid_unique w → ppt_id ∉ issued w) ∧
     issued w' = issued w ++ [ppt_id] ∧
     ∃ record,
       docs w' !! ppt_id = Some record ∧
       Py.lookup record "ppt_id" = Some (VStr ppt_id) ∧
       Py.lookup record "slides" = Some (VList slides) ∧
       Py.lookup record "slide_count" = Some (VInt (Z.of_nat (length slides))) ∧
       (Py.lookup data "topic" = None →
        Py.lookup record "topic" = Some (VStr "")) ∧
       (Py.lookup data "theme" = None →
        Py.lookup record "theme" = Some (VStr "modern")) ∧
       (∀ v, Py.lookup data "topic" = Some v →
             Py.lookup record "topic" = Some (Firestore.resolve (now w') v)) ∧
       (∀ v, Py.lookup data "theme" = Some v →
             Py.lookup record "theme" = Some (Firestore.resolve (now w') v)) ∧
       Py.lookup record "created_at" = Some (VTime (now w')) ∧
       Py.lookup record "updated_at" = Some (VTime (now w'))).
Proof.
  intros Hslides. rewrite create_presentation_run.
  unfold Py.get_default. rewrite Hslides. simpl.
  split.
  - intros ->. eauto.
  - intros ppt_id w' Hrun.
    destruct (fails (next_fate w)); [discriminate|].
    injection Hrun as <- <-.
    split; [apply issued_fresh|].
    split; [apply (issued_uuid4 w)|].
    eexists. split; [apply lookup_insert_eq|].
    unfold doc_data, Py.get_default. simpl. rewrite Hslides. simpl.
    repeat split; try done.
    + by intros ->.
    + by intros ->.
    + by intros v ->.
    + by intros v ->.
Qed.

Lemma create_presentation_record_witness :
  ∃ record,
    create_presentation "alice" deck quiet = (Ok "0", shelf) ∧
    ("0" ∉ issued quiet) ∧
    issued shelf = ["0"] ∧
    docs shelf !! "0" = Some record ∧
    Py.lookup record "slide_count" = Some (VInt 2) ∧
    Py.lookup record "theme" = Some (VStr "modern").
Proof.
  destruct (create_presentation_record quiet "alice" deck
              [VDict [("image_url", VStr "https://img/1");
                      ("image_storage_path", VStr "users/alice/images/1.jpg")];
               VDict [("title", VStr "Outline")]]
              eq_refl) as [_ Hrec].
  destruct (Hrec "0" shelf eq_refl)
    as (Hfresh & Hissued & record & Hdoc & _ & _ & Hcount & _ & Htheme & _).
  exists record.
  split_and!; [done | exact (Hfresh uuid_unique_quiet) | done | done | done
              | by apply Htheme].
Defined.

(** C9.  The record stored by a successful [create_presentation] has
    exactly the keys [ppt_id], [user_id], [topic], [theme], [slides],
    [slide_count], [created_at], [updated_at], [content_sources] and
    [brand_colors]; its [user_id] is the owner argument and its [ppt_id]
    the generated id, whatever the request data holds under those keys. *)
Theorem create_presentation_keys
    (w w' : world) (owner_id ppt_id : string) (data : pydict) :
  create_presentation owner_id data w = (Ok ppt_id, w') →
  ppt_id = uuid_tape w (uuid_next w) ∧
  ∃ record,
    docs w' !! ppt_id = Some record ∧
    Py.keys record =
      ["ppt_id"; "user_id"; "topic"; "theme"; "slides"; "slide_count";
       "created_at"; "updated_at"; "content_sources"; "brand_colors"] ∧
    Py.lookup record "user_id" = Some (VStr owner_id) ∧
    Py.lookup record "ppt_id" = Some (VStr ppt_id).
Proof.
  rewrite create_presentation_run. cbv zeta.
  destruct (Py.len _) as [n|e]; [|discriminate].
  destruct (fails (next_fate w)); [discriminate|].
  intros [= <- <-]. split; [done|].
  eexists. split; [apply lookup_insert_eq|].
  by repeat split.
Qed.

Lemma create_presentation_keys_witness :
  ∃ record,
    docs shelf !! "0" = Some record ∧
    Py.lookup deck "user_id" = Some (VStr "mallory") ∧
    Py.lookup record "user_id" = Some (VStr "alice") ∧
    Py.lookup deck "ppt_id" = Some (VStr "chosen") ∧
    Py.lookup record "ppt_id" = Some (VStr "0").
Proof.
  destruct (create_presentation_keys quiet shelf "alice" "0" deck eq_refl)
    as (_ & record & Hdoc & _ & Huser & Hid).
  exists record. by repeat split.
Defined.

(* ===================================================================== *)
(** ** Updating a presentation *)
(* ===================================================================== *)

(** C3.  [update_presentation] never raises; it returns false when no
    record is stored under the id, false when the stored [user_id] is not
    the requester, false when the platform fails the read or the write; it
    returns true exactly when the record exists, the requester owns it,
    the patch is a dictionary and both requests are served.  It has then
    persisted the patch, with [updated_at] added to it, merged into the
    stored record, and the record's [updated_at] is the server's time of
    the write; where records are stamped, that is no earlier than the
    [updated_at] the record had. *)
Theorem update_presentation_outcomes
    (w : world) (ppt_id requester_id : string) (updates : nat) :
  let r := update_presentation ppt_id requester_id updates w in
  (r.1 = Ok true ∨ r.1 = Ok false) ∧
  (docs w !! ppt_id = None → r.1 = Ok false) ∧
  (∀ data, docs w !! ppt_id = Some data →
           Py.get data "user_id" ≠ VStr requester_id → r.1 = Ok false) ∧
  (fails (fate_at w 0) = true ∨ fails (fate_at w 1) = true → r.1 = Ok false) ∧
  (r.1 = Ok true ↔
     ∃ data patch,
       docs w !! ppt_id = Some data ∧
       Py.get data "user_id" = VStr requester_id ∧
       heap w !! updates = Some patch ∧
       fails (fate_at w 0) = false ∧ fails (fate_at w 1) = false) ∧
  (r.1 = Ok true →
     ∃ data patch data',
       docs w !! ppt_id = Some data ∧
       heap w !! updates = Some patch ∧
       docs r.2 !! ppt_id = Some data' ∧
       data' = Firestore.merge data
                 (Firestore.stamp (now r.2)
                    (Py.set patch "updated_at" VServerTimestamp)) ∧
       Py.lookup data' "updated_at" = Some (VTime (now r.2)) ∧
       now r.2 = now w + elapsed (fate_at w 0) + elapsed (fate_at w 1) ∧
       (∀ k v, k ≠ "updated_at" → Py.lookup patch k = Some v →
               Py.lookup data' k = Some (Firestore.resolve (now r.2) v)) ∧
       (stamps_ok w →
        ∃ t, Py.lookup data "updated_at" = Some (VTime t) ∧ t ≤ now r.2)).
Proof.
  intros r. subst r. rewrite update_presentation_run, fate_at_0. cbv zeta.
  destruct (fails (next_fate w)) eqn:F0.
  { simpl. split_and!; try naive_solver. }
  destruct (docs w !! ppt_id) as [data|] eqn:Hdoc.
  2:{ simpl. split_and!; try naive_solver. }
  destruct (Py.eq_str (Py.get data "user_id") requester_id) eqn:Hown; simpl.
  2:{ apply eq_str_false in Hown. split_and!; try naive_solver. }
  apply eq_str_true in Hown.
  destruct (heap w !! updates) as [patch|] eqn:Hheap.
  2:{ simpl. split_and!; try naive_solver. }
  destruct (fails (fate_at w 1)) eqn:F1; simpl.
  { split_and!; try naive_solver. }
  split_and!; try naive_solver.
  intros _.
  assert (Hclock : next_fate (sending (ReqDocGet ppt_id) w) = fate_at w 1)
    by apply next_fate_sending.
  eexists data, patch, _.
  split_and!; [done | done | apply lookup_insert_eq | reflexivity | | | |].
  - rewrite lookup_merge, lookup_stamp, lookup_set_eq. reflexivity.
  - unfold set_heap. simpl. by rewrite <- Hclock.
  - intros k v Hk Hv.
    by rewrite lookup_merge, lookup_stamp, lookup_set_ne, Hv.
  - intros Hstamps.
    apply (map_Forall_lookup_1 _ _ _ _ Hstamps) in Hdoc as Hst.
    apply stamped_lookup in Hst as (t & Hold & Hle).
    exists t. split; [done|]. lia.
Qed.

Lemma update_presentation_outcomes_witness :
  let r := update_presentation "0" "alice" 7 desk in
  r.1 = Ok true ∧
  Py.lookup tides "updated_at" = Some (VTime 0) ∧
  now r.2 = 7 ∧
  ∃ data',
    docs r.2 !! "0" = Some data' ∧
    Py.lookup data' "updated_at" = Some (VTime 7) ∧
    Py.lookup data' "slides" = Some (VList []).
Proof.
  destruct (update_presentation_outcomes desk "0" "alice" 7)
    as (_ & _ & _ & _ & _ & Hstamp).
  destruct (Hstamp eq_refl)
    as (data & patch & data' & _ & Hpatch & Hnew & _ & Hat & Hclock & Hfields & _).
  injection Hpatch as <-.
  split_and!; [reflexivity | reflexivity | exact Hclock |].
  exists data'. split_and!; [exact Hnew | exact Hat |].
  by apply (Hfields "slides" (VList [])).
Defined.

(** C7.  A successful [update_presentation] overwrites field by field:
    every stored field that the patch does not name, [updated_at] apart,
    keeps its value, and every field the patch names takes the patch's
    value whole.  In particular a patch without [slide_count] leaves the
    stored [slide_count] as it was, whatever it does to [slides]. *)
Theorem update_presentation_frame
    (w w' : world) (ppt_id requester_id : string) (updates : nat) :
  update_presentation ppt_id requester_id updates w = (Ok true, w') →
  ∃ old new patch,
    docs w !! ppt_id = Some old ∧
    docs w' !! ppt_id = Some new ∧
    heap w !! updates = Some patch ∧
    (∀ k, k ≠ "updated_at" → Py.lookup patch k = None →
          Py.lookup new k = Py.lookup old k) ∧
    (∀ k v, k ≠ "updated_at" → Py.lookup patch k = Some v →
            Py.lookup new k = Some (Firestore.resolve (now w') v)) ∧
    (Py.lookup patch "slide_count" = None →
     Py.lookup new "slide_count" = Py.lookup old "slide_count").
Proof.
  intros (old & patch & Hold & Hpatch & Hdocs)%update_presentation_true.
  exists old, (Firestore.merge old
                 (Firestore.stamp (now w')
                    (Py.set patch "updated_at" VServerTimestamp))), patch.
  assert (Hkeep : ∀ k, k ≠ "updated_at" → Py.lookup patch k = None →
            Py.lookup (Firestore.merge old
                         (Firestore.stamp (now w')
                            (Py.set patch "updated_at" VServerTimestamp))) k
            = Py.lookup old k).
  { intros k Hk Hnone.
    by rewrite lookup_merge, lookup_stamp, lookup_set_ne, Hnone. }
  split_and!; try done.
  - rewrite Hdocs. apply lookup_insert_eq.
  - intros k v Hk Hsome.
    by rewrite lookup_merge, lookup_stamp, lookup_set_ne, Hsome.
  - by apply Hkeep.
Qed.

Lemma update_presentation_frame_witness :
  ∃ old new,
    docs desk !! "0" = Some old ∧
    docs (update_presentation "0" "alice" 7 desk).2 !! "0" = Some new ∧
    Py.lookup old "slides" ≠ Py.lookup new "slides" ∧
    Py.lookup new "slides" = Some (VList []) ∧
    Py.lookup new "slide_count" = Some (VInt 2).
Proof.
  destruct (update_presentation_frame desk
              (update_presentation "0" "alice" 7 desk).2 "0" "alice" 7 eq_refl)
    as (old & new & patch & Hold & Hnew & Hpatch & _ & _ & Hcount).
  exists old, new.
  injection Hold as <-. injection Hpatch as <-.
  specialize (Hcount eq_refl).
  split_and!; try done.
  - injection Hnew as <-. vm_compute. discriminate.
  - injection Hnew as <-. reflexivity.
Defined.

(** C10.  [update_presentation] writes into the caller's own patch
    dictionary: once the read is served, the record exists and the
    requester owns it, the dictionary behind the reference has gained
    [updated_at], set to the server-timestamp sentinel, whether or not the
    write that follows is served; when there is no record, or the requester
    does not own it, no dictionary of the caller has changed. *)
Theorem update_presentation_mutates_patch
    (w : world) (ppt_id requester_id : string) (updates : nat) (patch : pydict) :
  heap w !! updates = Some patch →
  let w' := (update_presentation ppt_id requester_id updates w).2 in
  (∀ data, fails (fate_at w 0) = false →
           docs w !! ppt_id = Some data →
           Py.get data "user_id" = VStr requester_id →
           heap w' = <[updates := Py.set patch "updated_at" VServerTimestamp]> (heap w)) ∧
  (docs w !! ppt_id = None → heap w' = heap w) ∧
  (∀ data, docs w !! ppt_id = Some data →
           Py.get data "user_id" ≠ VStr requester_id →
           heap w' = heap w).
Proof.
  intros Hpatch w'. subst w'. rewrite update_presentation_run, fate_at_0. cbv zeta.
  split_and!.
  - intros data -> -> Hown%eq_str_true. rewrite Hown, Hpatch. simpl.
    by destruct (fails (fate_at w 1)).
  - intros ->. by destruct (fails (next_fate w)).
  - intros data -> Hown%eq_str_false. rewrite Hown. simpl.
    by destruct (fails (next_fate w)).
Qed.

Lemma update_presentation_mutates_patch_witness :
  heap desk !! 7 = Some [("slides", VList [])] ∧
  heap (update_presentation "0" "alice" 7 desk).2 !! 7 =
    Some [("slides", VList []); ("updated_at", VServerTimestamp)] ∧
  heap (update_presentation "0" "bob" 7 desk).2 !! 7 = Some [("slides", VList [])] ∧
  heap (update_presentation "1" "alice" 7 desk).2 !! 7 = Some [("slides", VList [])].
Proof.
  destruct (update_presentation_mutates_patch desk "0" "alice" 7
              [("slides", VList [])] eq_refl) as (Hown & _ & _).
  destruct (update_presentation_mutates_patch desk "0" "bob" 7
              [("slides", VList [])] eq_refl) as (_ & _ & Hother).
  destruct (update_presentation_mutates_patch desk "1" "alice" 7
              [("slides", VList [])] eq_refl) as (_ & Habsent & _).
  split_and!.
  - reflexivity.
  - rewrite (Hown tides); [reflexivity | reflexivity | reflexivity | reflexivity].
  - rewrite (Hother tides); [reflexivity | reflexivity | vm_compute; discriminate].
  - rewrite Habsent; reflexivity.
Defined.

(* ===================================================================== *)
(** ** Deleting a presentation *)
(* ===================================================================== *)

(** One asset delete: whatever becomes of it, it returns, it has sent its
    request and used up one fate, and the collection is as before. *)
Lemma delete_image_path s w :
  ∃ b, (delete_image (VStr s) w).1 = Ok b ∧
       docs (delete_image (VStr s) w).2 = docs w ∧
       sent (delete_image (VStr s) w).2 = sent w ++ [ReqBlobDelete s] ∧
       tape (delete_image (VStr s) w).2 = tail (tape w).
Proof.
  unfold delete_image, delete_image_try, Storage.delete_blob. unfold_monad. simpl.
  destruct (fails (next_fate w)); simpl; [by eexists|].
  destruct (bucket w !! s); simpl; by eexists.
Qed.

Lemma delete_slide_image_ok slide w :
  slide_ok slide →
  (delete_slide_image slide w).1 = Ok () ∧
  docs (delete_slide_image slide w).2 = docs w ∧
  sent (delete_slide_image slide w).2 =
    sent w ++ (ReqBlobDelete <$> option_list (asset_path slide)) ∧
  tape (delete_slide_image slide w).2 =
    drop (length (option_list (asset_path slide))) (tape w).
Proof.
  destruct slide as [| | | | | | |d]; try done. simpl.
  unfold delete_slide_image. unfold_monad. simpl.
  unfold Py.get, Py.getitem.
  destruct (Py.lookup d "image_storage_path") as [[| | |s| | | |]|] eqn:E;
    simpl; try done; try by rewrite app_nil_r.
  intros _. destruct (String.eqb s "") eqn:Es; simpl; [by rewrite app_nil_r|].
  destruct (delete_image_path s w) as (b & H1 & H2 & H3 & H4).
  destruct (delete_image (VStr s) w) as [[b'|e] w1]; [|done]. simpl in *.
  rewrite H4. by destruct (tape w).
Qed.

(** The loop over the slides of a well-formed record runs to its end
    whatever becomes of the asset deletes. *)
Lemma for_each_delete_slide_image slides w :
  Forall slide_ok slides →
  (for_each slides delete_slide_image w).1 = Ok () ∧
  docs (for_each slides delete_slide_image w).2 = docs w ∧
  sent (for_each slides delete_slide_image w).2 =
    sent w ++ (ReqBlobDelete <$> asset_paths slides) ∧
  tape (for_each slides delete_slide_image w).2 =
    drop (length (asset_paths slides)) (tape w).
Proof.
  intros Hok. revert w. induction Hok as [|slide slides Hslide _ IH]; intros w.
  - simpl. by rewrite app_nil_r.
  - cbn [for_each]. unfold mbind, M_bind, bind.
    destruct (delete_slide_image_ok slide w Hslide) as (H1 & H2 & H3 & H4).
    destruct (delete_slide_image slide w) as [[[]|e] w1]; [|done]. simpl in *.
    destruct (IH w1) as (I1 & I2 & I3 & I4).
    split_and!; try congruence.
    + rewrite I3, H3. unfold asset_paths. simpl.
      destruct (asset_path slide); simpl; by rewrite <- ?app_assoc.
    + rewrite I4, H4. unfold asset_paths. simpl.
      destruct (asset_path slide); simpl; [|done].
      by rewrite drop_drop.
Qed.

(** C4.  Take a record owned by the requester whose slides are mappings,
    and let the platform serve the read of the record and the delete of
    the record.  Then [delete_presentation] returns true after sending, in
    this order, the read, one asset delete for every slide that carries a
    storage path, and the delete of the record: nothing is assumed of the
    asset deletes, any of which may fail.  The record is gone, and
    [get_presentation] by the same owner answers [None]. *)
Theorem delete_presentation_best_effort
    (w : world) (ppt_id requester_id : string) (data : pydict) (slides : list value) :
  docs w !! ppt_id = Some data →
  Py.get data "user_id" = VStr requester_id →
  Py.get_default data "slides" (VList []) = VList slides →
  Forall slide_ok slides →
  fails (fate_at w 0) = false →
  fails (fate_at w (S (length (asset_paths slides)))) = false →
  let r := delete_presentation ppt_id requester_id w in
  r.1 = Ok true ∧
  sent r.2 = sent w ++ [ReqDocGet ppt_id]
                    ++ (ReqBlobDelete <$> asset_paths slides)
                    ++ [ReqDocDelete ppt_id] ∧
  docs r.2 = delete ppt_id (docs w) ∧
  (get_presentation ppt_id (Some requester_id) r.2).1 = Ok None.
Proof.
  intros Hdoc Hown Hslides Hok Hget Hdel r.
  assert (Hrun : r.1 = Ok true ∧
                 sent r.2 = sent w ++ [ReqDocGet ppt_id]
                              ++ (ReqBlobDelete <$> asset_paths slides)
                              ++ [ReqDocDelete ppt_id] ∧
                 docs r.2 = delete ppt_id (docs w)).
  { subst r. unfold delete_presentation, delete_presentation_try, Firestore.doc_get,
      Firestore.doc_delete. unfold_monad.
    rewrite fate_at_0 in Hget. rewrite Hget. simpl. rewrite Hdoc.
    apply eq_str_true in Hown. rewrite Hown, Hslides. simpl.
    destruct (for_each_delete_slide_image slides (sending (ReqDocGet ppt_id) w) Hok)
      as (L1 & L2 & L3 & L4).
    destruct (for_each slides delete_slide_image _) as [[[]|e] w2]; [|done].
    simpl in *.
    rewrite (next_fate_drop w w2 (S (length (asset_paths slides)))), Hdel.
    2:{ rewrite L4. destruct (tape w); simpl; [by rewrite drop_nil | done]. }
    simpl. rewrite L2, L3. by rewrite <- !app_assoc. }
  destruct Hrun as (R1 & R2 & R3). split_and!; try done.
  rewrite get_presentation_run. simpl. rewrite R3, lookup_delete_eq.
  by destruct (fails (next_fate r.2)).
Qed.

Lemma delete_presentation_best_effort_witness :
  (delete_presentation "0" "alice" stormy).1 = Ok true ∧
  fails (fate_at stormy 1) = true ∧
  sent (delete_presentation "0" "alice" stormy).2 =
    [ReqDocSet "0"; ReqDocGet "0"; ReqBlobDelete "users/alice/images/1.jpg";
     ReqDocDelete "0"] ∧
  (get_presentation "0" (Some "alice")
     (delete_presentation "0" "alice" stormy).2).1 = Ok None.
Proof.
  destruct (delete_presentation_best_effort stormy "0" "alice" tides
              [VDict [("image_url", VStr "https://img/1");
                      ("image_storage_path", VStr "users/alice/images/1.jpg")];
               VDict [("title", VStr "Outline")]])
    as (Hret & Hsent & _ & Hget); try reflexivity.
  - repeat constructor.
  - split_and!; [done | reflexivity | done | done].
Defined.

(** A slide that is not a mapping stops the delete before the record is
    touched: the hypothesis on the slides cannot be dropped. *)
Example delete_presentation_malformed_slide :
  let w := set_docs (insert "0" [("user_id", VStr "alice");
                                 ("slides", VList [VInt 1])]) quiet in
  (delete_presentation "0" "alice" w).1 = Ok false ∧
  docs (delete_presentation "0" "alice" w).2 = docs w.
Proof. split; reflexivity. Qed.

(* ===================================================================== *)
(** ** Listing the presentations of a user *)
(* ===================================================================== *)

Lemma fs_leb_total a b : Firestore.leb a b = true ∨ Firestore.leb b a = true.
Proof.
  destruct a, b; simpl; try (by left); try (by right).
  - destruct b, b0; auto.
  - rewrite !Z.leb_le. lia.
  - apply String.leb_total.
  - rewrite !Nat.leb_le. lia.
Qed.

Lemma string_leb_trans s1 s2 s3 :
  String.leb s1 s2 = true → String.leb s2 s3 = true → String.leb s1 s3 = true.
Proof.
  unfold String.leb. revert s2 s3.
  induction s1 as [|a s1 IH]; intros [|b s2] [|c s3]; simpl; try done.
  unfold Ascii.compare.
  destruct (N.compare_spec (Ascii.N_of_ascii a) (Ascii.N_of_ascii b)) as [Hab|Hab|Hab];
    destruct (N.compare_spec (Ascii.N_of_ascii b) (Ascii.N_of_ascii c)) as [Hbc|Hbc|Hbc];
    destruct (N.compare_spec (Ascii.N_of_ascii a) (Ascii.N_of_ascii c)) as [Hac|Hac|Hac];
    try done; try lia.
  apply IH.
Qed.

Lemma fs_leb_trans a b c :
  Firestore.leb a b = true → Firestore.leb b c = true → Firestore.leb a c = true.
Proof.
  destruct a, b, c; simpl; try done;
    rewrite ?Nat.leb_le, ?Z.leb_le; try lia.
  - by destruct b, b0, b1.
  - apply string_leb_trans.
Qed.

#[local] Instance created_desc_total : Total Firestore.created_desc.
Proof. intros d1 d2. unfold Firestore.created_desc. apply fs_leb_total. Qed.

#[local] Instance created_desc_trans : Transitive Firestore.created_desc.
Proof.
  intros d1 d2 d3. unfold Firestore.created_desc. intros H12 H23.
  by apply (fs_leb_trans _ (Py.get d2 "created_at")).
Qed.

Lemma StronglySorted_take {A} (R : relation A) n l :
  StronglySorted R l → StronglySorted R (take n l).
Proof.
  intros Hs. rewrite <- (take_drop n l) in Hs.
  by apply StronglySorted_app_1_l in Hs.
Qed.

Lemma collect_Forall2 {A B} (f : A → outcome B) xs ys :
  collect xs f = Ok ys → Forall2 (λ x y, f x = Ok y) xs ys.
Proof.
  revert ys. induction xs as [|x xs IH]; intros ys; simpl.
  - intros [= <-]. constructor.
  - unfold mbind, outcome_bind. destruct (f x) as [y|e] eqn:Hx; [|discriminate].
    destruct (collect xs f) as [ys'|e]; [|discriminate].
    intros [= <-]. constructor; auto.
Qed.

Lemma StronglySorted_Forall2 {A B} (R : relation A) (R' : relation B)
    (P : A → B → Prop) xs ys :
  (∀ x x' y y', P x y → P x' y' → R x x' → R' y y') →
  Forall2 P xs ys → StronglySorted R xs → StronglySorted R' ys.
Proof.
  intros Hrel Hall. induction Hall as [|x y xs ys Hxy Hall IH]; intros Hs.
  - constructor.
  - apply StronglySorted_inv in Hs as [Hs Hhd]. constructor; [auto|].
    clear IH Hs. induction Hall as [|x' y' xs ys Hxy' Hall IH]; [constructor|].
    apply Forall_cons in Hhd as [Hx Hhd]. constructor; eauto.
Qed.

Lemma summary_created_at data s :
  summary data = Ok s → Py.get s "created_at" = Py.get data "created_at".
Proof.
  unfold summary, mbind, outcome_bind.
  destruct (thumbnail data); [|discriminate]. by intros [= <-].
Qed.

(** The thumbnail of a summary: the first slide's [image_url], or [None]
    for a record without slides. *)
Lemma summary_thumbnail data s :
  summary data = Ok s →
  (Py.lookup data "slides" = None ∨ Py.lookup data "slides" = Some (VList []) →
   Py.lookup s "thumbnail" = Some VNone) ∧
  (∀ slide rest, Py.lookup data "slides" = Some (VList (VDict slide :: rest)) →
                 Py.lookup s "thumbnail" = Some (Py.get slide "image_url")).
Proof.
  unfold summary, thumbnail, mbind, outcome_bind, Py.get, Py.get_default.
  intros Hs. split.
  - intros [H|H]; rewrite H in Hs; simpl in Hs; by injection Hs as <-.
  - intros slide rest H. rewrite H in Hs. simpl in Hs. by injection Hs as <-.
Qed.

Lemma select_owned owner limit store d :
  d ∈ Firestore.select owner limit store →
  ∃ id, store !! id = Some d ∧ Py.get d "user_id" = VStr owner.
Proof.
  unfold Firestore.select. intros Hin%subseteq_take.
  rewrite merge_sort_Permutation in Hin.
  apply list_elem_of_filter in Hin as [Hown Hin].
  apply list_elem_of_fmap in Hin as ([id d'] & -> & Hin).
  apply elem_of_map_to_list in Hin.
  exists id. split; [done|]. by apply eq_str_true.
Qed.

Lemma select_sorted owner limit store :
  StronglySorted Firestore.created_desc (Firestore.select owner limit store).
Proof. apply StronglySorted_take, StronglySorted_merge_sort; apply _. Qed.

Lemma select_length owner limit store :
  (0 ≤ limit)%Z →
  (Z.of_nat (length (Firestore.select owner limit store)) ≤ limit)%Z.
Proof. intros Hlim. unfold Firestore.select. rewrite length_take. lia. Qed.

Lemma get_user_presentations_run user_id limit w :
  get_user_presentations user_id limit w =
    let cap := default 50%Z limit in
    (Ok (if fails (next_fate w) then []
         else match collect (Firestore.select user_id cap (docs w)) summary with
              | Ok presentations => presentations
              | Raise _ => []
              end),
     sending (ReqQuery user_id cap) w).
Proof.
  unfold get_user_presentations, get_user_presentations_try, Firestore.query.
  unfold_monad.
  destruct (fails (next_fate w)); [done|]. simpl.
  by destruct (collect _ _).
Qed.

(** C5.  For a limit that is a count, [get_user_presentations] never
    raises and returns at most [limit] summaries, in descending order of
    [created_at]: each one's is no earlier than that of every summary after
    it.  Each is the summary of a stored record whose [user_id] is the
    queried owner, with the first slide's [image_url] as thumbnail when the
    record has a slide and [None] when it has none; and when the platform
    fails the query the result is the empty list. *)
Theorem get_user_presentations_summaries
    (w : world) (owner_id : string) (limit : Z) :
  (0 ≤ limit)%Z →
  ∃ out,
    (get_user_presentations owner_id (Some limit) w).1 = Ok out ∧
    (Z.of_nat (length out) ≤ limit)%Z ∧
    StronglySorted Firestore.created_desc out ∧
    (∀ s, s ∈ out →
       ∃ id data,
         docs w !! id = Some data ∧
         Py.get data "user_id" = VStr owner_id ∧
         summary data = Ok s ∧
         (Py.lookup data "slides" = None ∨
          Py.lookup data "slides" = Some (VList []) →
          Py.lookup s "thumbnail" = Some VNone) ∧
         (∀ slide rest,
            Py.lookup data "slides" = Some (VList (VDict slide :: rest)) →
            Py.lookup s "thumbnail" = Some (Py.get slide "image_url"))) ∧
    (fails (next_fate w) = true → out = []).
Proof.
  intros Hlim. rewrite get_user_presentations_run. cbn [default].
  eexists. split; [reflexivity|].
  destruct (fails (next_fate w)).
  { split_and!; [simpl; lia | constructor | by intros s ?%elem_of_nil | done]. }
  destruct (collect _ _) as [out|e] eqn:Hcollect.
  2:{ split_and!; [simpl; lia | constructor | by intros s ?%elem_of_nil | done]. }
  apply collect_Forall2 in Hcollect.
  split_and!; [| | |done].
  - rewrite <- (Forall2_length _ _ _ Hcollect). by apply select_length.
  - eapply StronglySorted_Forall2; [|done|apply select_sorted].
    intros d d' s s' Hs Hs'. unfold Firestore.created_desc.
    by rewrite (summary_created_at _ _ Hs), (summary_created_at _ _ Hs').
  - intros s Hin.
    apply list_elem_of_lookup in Hin as [i Hi].
    destruct (Forall2_lookup_r _ _ _ _ _ Hcollect Hi) as (data & Hdata & Hsum).
    apply list_elem_of_lookup_2 in Hdata.
    apply select_owned in Hdata as (id & Hdoc & Hown).
    exists id, data. split_and!; try done; by apply summary_thumbnail.
Qed.

Lemma get_user_presentations_summaries_witness :
  ∃ out,
    (get_user_presentations "alice" (Some 1%Z) library).1 = Ok out ∧
    (Z.of_nat (length out) ≤ 1)%Z ∧
    StronglySorted Firestore.created_desc out.
Proof.
  destruct (get_user_presentations_summaries library "alice" 1 ltac:(lia))
    as (out & Hrun & Hlen & Hsorted & _).
  by exists out.
Defined.

(** Alice's two presentations, the later one first; bob's is not listed. *)
Example library_listing :
  (get_user_presentations "alice" None library).1 =
    Ok [[("ppt_id", VStr "2"); ("topic", VStr "Moons"); ("theme", VStr "modern");
         ("slide_count", VInt 0); ("created_at", VTime 3); ("updated_at", VTime 3);
         ("thumbnail", VNone)];
        [("ppt_id", VStr "0"); ("topic", VStr "Tides"); ("theme", VStr "modern");
         ("slide_count", VInt 2); ("created_at", VTime 1); ("updated_at", VTime 1);
         ("thumbnail", VStr "https://img/1")]].
Proof. vm_compute. reflexivity. Qed.

(* ===================================================================== *)
(** ** The error boundary *)
(* ===================================================================== *)

Lemma try_except_swallows {A} (body : M A) (sentinel : A) :
  swallows (try_except body (λ _, mret sentinel)) body sentinel.
Proof. intros w. unfold try_except. by destruct (body w) as [[a|e] w']. Qed.

Lemma swallows_never_raises {A} (m body : M A) sentinel :
  swallows m body sentinel → never_raises m.
Proof.
  intros Hs w. rewrite (Hs w). destruct (body w) as [[a|e] w']; by eexists.
Qed.

Lemma try_except_reraise {A} (body : M A) :
  propagates (try_except body (λ e, raise e)) body.
Proof. intros w. unfold try_except. by destruct (body w) as [[a|e] w']. Qed.

Lemma create_presentation_backend_failure user_id data w :
  fails (next_fate w) = true →
  (∃ n, Py.len (Py.get_default data "slides" (VList [])) = Ok n) →
  (create_presentation user_id data w).1 = Raise BackendError.
Proof.
  intros Hf [n Hn]. rewrite create_presentation_run. cbv zeta. by rewrite Hn, Hf.
Qed.

Lemma create_presentation_bad_slides user_id data e w :
  Py.len (Py.get_default data "slides" (VList [])) = Raise e →
  (create_presentation user_id data w).1 = Raise e.
Proof. intros Hn. rewrite create_presentation_run. cbv zeta. by rewrite Hn. Qed.

Section sentinels.

Ltac fail_first Hf := unfold_monad; simpl; rewrite ?Hf; simpl; try done.

Lemma verify_token_failure t : sentinel_on_failure (verify_token t) None.
Proof.
  intros w Hf. unfold verify_token, verify_token_try, Auth.verify_id_token.
  fail_first Hf.
Qed.

Lemma get_user_failure u : sentinel_on_failure (get_user u) None.
Proof.
  intros w Hf. unfold get_user, get_user_try, Auth.get_user. fail_first Hf.
Qed.

Lemma create_custom_token_failure u :
  sentinel_on_failure (create_custom_token u) None.
Proof.
  intros w Hf. unfold create_custom_token, create_custom_token_try,
    Auth.create_custom_token. fail_first Hf.
Qed.

Lemma upload_image_failure i d : sentinel_on_failure (upload_image i d) None.
Proof.
  intros w Hf. unfold upload_image, upload_image_try,
    Storage.upload_from_filename, Storage.put.
  unfold_monad. destruct (files w !! i); [|done]. by rewrite Hf.
Qed.

Lemma upload_image_from_bytes_failure b d c :
  sentinel_on_failure (upload_image_from_bytes b d c) None.
Proof.
  intros w Hf. unfold upload_image_from_bytes, upload_image_from_bytes_try,
    Storage.put. fail_first Hf.
Qed.

Lemma delete_image_failure p : sentinel_on_failure (delete_image p) false.
Proof.
  intros w Hf. unfold delete_image, delete_image_try, Storage.delete_blob.
  destruct p; fail_first Hf.
Qed.

Lemma get_presentation_failure i u : sentinel_on_failure (get_presentation i u) None.
Proof. intros w Hf. rewrite get_presentation_run. simpl. by rewrite Hf. Qed.

Lemma update_presentation_failure i u l :
  sentinel_on_failure (update_presentation i u l) false.
Proof. intros w Hf. rewrite update_presentation_run. cbv zeta. by rewrite Hf. Qed.

Lemma delete_presentation_failure i u :
  sentinel_on_failure (delete_presentation i u) false.
Proof.
  intros w Hf. unfold delete_presentation, delete_presentation_try,
    Firestore.doc_get. fail_first Hf.
Qed.

Lemma get_user_presentations_failure u l :
  sentinel_on_failure (get_user_presentations u l) [].
Proof. intros w Hf. rewrite get_user_presentations_run. simpl. by rewrite Hf. Qed.

End sentinels.

(** C6.  Every method of the facade but [create_presentation] is its
    [try] body with every exception replaced by a sentinel: [None] for the
    lookups, false for the booleans, the empty list for the listing; so it
    returns that sentinel when the platform fails its first request, and it
    does not raise.  [create_presentation] is its body with every exception
    passed on: it raises when the platform fails the write, and when the
    slides of the request have no length. *)
Theorem facade_error_boundary :
  ((∀ t, swallows (verify_token t) (verify_token_try t) None) ∧
   (∀ u, swallows (get_user u) (get_user_try u) None) ∧
   (∀ u, swallows (create_custom_token u) (create_custom_token_try u) None) ∧
   (∀ i d, swallows (upload_image i d) (upload_image_try i d) None) ∧
   (∀ b d c, swallows (upload_image_from_bytes b d c)
                      (upload_image_from_bytes_try b d c) None) ∧
   (∀ p, swallows (delete_image p) (delete_image_try p) false) ∧
   (∀ i u, swallows (get_presentation i u) (get_presentation_try i u) None) ∧
   (∀ i u l, swallows (update_presentation i u l)
                      (update_presentation_try i u l) false) ∧
   (∀ i u, swallows (delete_presentation i u) (delete_presentation_try i u) false) ∧
   (∀ u l, swallows (get_user_presentations u l)
                    (get_user_presentations_try u l) [])) ∧
  ((∀ t, sentinel_on_failure (verify_token t) None) ∧
   (∀ u, sentinel_on_failure (get_user u) None) ∧
   (∀ u, sentinel_on_failure (create_custom_token u) None) ∧
   (∀ i d, sentinel_on_failure (upload_image i d) None) ∧
   (∀ b d c, sentinel_on_failure (upload_image_from_bytes b d c) None) ∧
   (∀ p, sentinel_on_failure (delete_image p) false) ∧
   (∀ i u, sentinel_on_failure (get_presentation i u) None) ∧
   (∀ i u l, sentinel_on_failure (update_presentation i u l) false) ∧
   (∀ i u, sentinel_on_failure (delete_presentation i u) false) ∧
   (∀ u l, sentinel_on_failure (get_user_presentations u l) [])) ∧
  ((∀ t, never_raises (verify_token t)) ∧
   (∀ u, never_raises (get_user u)) ∧
   (∀ u, never_raises (create_custom_token u)) ∧
   (∀ i d, never_raises (upload_image i d)) ∧
   (∀ b d c, never_raises (upload_image_from_bytes b d c)) ∧
   (∀ p, never_raises (delete_image p)) ∧
   (∀ i u, never_raises (get_presentation i u)) ∧
   (∀ i u l, never_raises (update_presentation i u l)) ∧
   (∀ i u, never_raises (delete_presentation i u)) ∧
   (∀ u l, never_raises (get_user_presentations u l))) ∧
  ((∀ u d, propagates (create_presentation u d) (create_presentation_try u d)) ∧
   (∀ u d w, fails (next_fate w) = true →
             (∃ n, Py.len (Py.get_default d "slides" (VList [])) = Ok n) →
             (create_presentation u d w).1 = Raise BackendError) ∧
   (∀ u d e w, Py.len (Py.get_default d "slides" (VList [])) = Raise e →
               (create_presentation u d w).1 = Raise e)).
Proof.
  split_and!; intros;
    first [ apply try_except_swallows
          | eapply swallows_never_raises, try_except_swallows
          | apply try_except_reraise
          | by apply create_presentation_backend_failure
          | by apply create_presentation_bad_slides
          | apply verify_token_failure
          | apply get_user_failure
          | apply create_custom_token_failure
          | apply upload_image_failure
          | apply upload_image_from_bytes_failure
          | apply delete_image_failure
          | apply get_presentation_failure
          | apply update_presentation_failure
          | apply delete_presentation_failure
          | apply get_user_presentations_failure ].
Qed.

(** [create_presentation] raising, on a platform that fails the write and
    on slides that have no length. *)
Example create_presentation_raises :
  (create_presentation "alice" deck (set_tape [Fate 0 true] quiet)).1
    = Raise BackendError ∧
  (create_presentation "alice" [("slides", VNone)] quiet).1 = Raise TypeError.
Proof. split; reflexivity. Qed.

(* ===================================================================== *)
(** ** Asset storage *)
(* ===================================================================== *)

Lemma upload_image_run image_path destination_path w :
  upload_image image_path destination_path w =
    match files w !! image_path with
    | None => (Ok None, w)
    | Some content =>
        let ct := Some (Storage.guessed_type w image_path) in
        let w1 := sending (ReqBlobUpload destination_path) w in
        if fails (next_fate w) then (Ok None, w1)
        else
          let w2 := set_bucket (insert destination_path (Blob content ct false)) w1 in
          let w3 := sending (ReqBlobMakePublic destination_path) w2 in
          if fails (fate_at w 1) then (Ok None, w3)
          else (Ok (Some (Storage.public_url destination_path)),
                set_bucket (insert destination_path (Blob content ct true)) w3)
    end.
Proof.
  unfold upload_image, upload_image_try, Storage.upload_from_filename,
    Storage.put, Storage.make_public. unfold_monad.
  destruct (files w !! image_path) as [content|]; [|done].
  destruct (fails (next_fate w)); [done|]. simpl.
  replace (next_fate _) with (fate_at w 1).
  2:{ unfold next_fate, fate_at. simpl. by destruct (tape w) as [|? [|? ?]]. }
  destruct (fails (fate_at w 1)); [done|].
  by rewrite lookup_insert_eq.
Qed.

Lemma upload_image_from_bytes_run image_bytes destination_path content_type w :
  upload_image_from_bytes image_bytes destination_path content_type w =
    let ct := Some (default "image/jpeg" content_type) in
    let w1 := sending (ReqBlobUpload destination_path) w in
    if fails (next_fate w) then (Ok None, w1)
    else
      let w2 := set_bucket (insert destination_path (Blob image_bytes ct false)) w1 in
      let w3 := sending (ReqBlobMakePublic destination_path) w2 in
      if fails (fate_at w 1) then (Ok None, w3)
      else (Ok (Some (Storage.public_url destination_path)),
            set_bucket (insert destination_path (Blob image_bytes ct true)) w3).
Proof.
  unfold upload_image_from_bytes, upload_image_from_bytes_try,
    Storage.put, Storage.make_public. unfold_monad.
  destruct (fails (next_fate w)); [done|]. simpl.
  replace (next_fate _) with (fate_at w 1).
  2:{ unfold next_fate, fate_at. simpl. by destruct (tape w) as [|? [|? ?]]. }
  destruct (fails (fate_at w 1)); [done|].
  by rewrite lookup_insert_eq.
Qed.

Lemma delete_image_run storage_path w :
  delete_image storage_path w =
    match storage_path with
    | VStr s =>
        let w1 := sending (ReqBlobDelete s) w in
        if fails (next_fate w) then (Ok false, w1)
        else match bucket w !! s with
             | None => (Ok false, w1)
             | Some _ => (Ok true, set_bucket (delete s) w1)
             end
    | _ => (Ok false, w)
    end.
Proof.
  unfold delete_image, delete_image_try, Storage.delete_blob. unfold_monad.
  destruct storage_path; try done. simpl.
  destruct (fails (next_fate w)); [done|]. simpl.
  by destruct (bucket w !! s).
Qed.

(** X1.  When the local file exists and the platform serves both the
    upload and the request that makes the object public, [upload_image]
    returns the public URL of the destination, and the bucket then holds
    the file's content there, under the content type guessed from the name
    of the local file, publicly readable, whatever it held there before;
    every other object is as it was. *)
Theorem upload_image_stores
    (w : world) (image_path destination_path content : string) :
  files w !! image_path = Some content →
  fails (fate_at w 0) = false →
  fails (fate_at w 1) = false →
  let r := upload_image image_path destination_path w in
  r.1 = Ok (Some (Storage.public_url destination_path)) ∧
  bucket r.2 !! destination_path =
    Some (Blob content
               (Some (default "application/octet-stream" (mimetypes w image_path)))
               true) ∧
  (∀ path, path ≠ destination_path → bucket r.2 !! path = bucket w !! path) ∧
  docs r.2 = docs w.
Proof.
  intros Hfile H0 H1 r. subst r. rewrite fate_at_0 in H0.
  rewrite upload_image_run, Hfile. cbv zeta. rewrite H0, H1. simpl.
  split_and!; try done.
  - apply lookup_insert_eq.
  - intros path Hne. by rewrite !lookup_insert_ne.
Qed.

Lemma upload_image_stores_witness :
  (upload_image "/tmp/1.jpg" "users/alice/images/1.jpg" studio).1 =
    Ok (Some "https://storage.googleapis.com/fy-project-518d9.appspot.com/users/alice/images/1.jpg") ∧
  bucket (upload_image "/tmp/1.jpg" "users/alice/images/1.jpg" studio).2
    !! "users/alice/images/1.jpg" = Some (Blob "JFIF" (Some "image/jpeg") true).
Proof.
  destruct (upload_image_stores studio "/tmp/1.jpg" "users/alice/images/1.jpg" "JFIF")
    as (Hret & Hblob & _); try reflexivity.
  split; [exact Hret | exact Hblob].
Defined.

(** X2.  When the local file does not exist, [upload_image] returns
    [None] without sending any request: the world is left exactly as it
    was. *)
Theorem upload_image_missing_file
    (w : world) (image_path destination_path : string) :
  files w !! image_path = None →
  upload_image image_path destination_path w = (Ok None, w).
Proof. intros Hfile. by rewrite upload_image_run, Hfile. Qed.

Lemma upload_image_missing_file_witness :
  upload_image "/tmp/2.jpg" "users/alice/images/2.jpg" studio = (Ok None, studio).
Proof. apply upload_image_missing_file. reflexivity. Defined.

(** X3.  An upload is not undone when making the object public fails:
    when the platform serves the upload and fails the next request,
    [upload_image] returns [None], yet the bucket holds the new content at
    the destination, under the content type guessed from the name of the
    local file, not publicly readable. *)
Theorem upload_image_not_rolled_back
    (w : world) (image_path destination_path content : string) :
  files w !! image_path = Some content →
  fails (fate_at w 0) = false →
  fails (fate_at w 1) = true →
  let r := upload_image image_path destination_path w in
  r.1 = Ok None ∧
  bucket r.2 !! destination_path =
    Some (Blob content
               (Some (default "application/octet-stream" (mimetypes w image_path)))
               false).
Proof.
  intros Hfile H0 H1 r. subst r. rewrite fate_at_0 in H0.
  rewrite upload_image_run, Hfile. cbv zeta. rewrite H0, H1. simpl.
  split; [done | apply lookup_insert_eq].
Qed.

Lemma upload_image_not_rolled_back_witness :
  let w := set_tape [Fate 0 false; Fate 0 true] studio in
  (upload_image "/tmp/1.jpg" "a.jpg" w).1 = Ok None ∧
  bucket (upload_image "/tmp/1.jpg" "a.jpg" w).2 !! "a.jpg"
    = Some (Blob "JFIF" (Some "image/jpeg") false).
Proof.
  apply (upload_image_not_rolled_back
           (set_tape [Fate 0 false; Fate 0 true] studio) "/tmp/1.jpg" "a.jpg" "JFIF");
    reflexivity.
Defined.

(** X4.  When both requests are served, [upload_image_from_bytes] stores
    the bytes at the destination under the content type given, or under
    ["image/jpeg"] when none is given, publicly readable, and returns the
    public URL; when either request fails it returns [None]. *)
Theorem upload_image_from_bytes_stores
    (w : world) (image_bytes destination_path : string)
    (content_type : option string) :
  let r := upload_image_from_bytes image_bytes destination_path content_type w in
  (fails (fate_at w 0) = false → fails (fate_at w 1) = false →
   r.1 = Ok (Some (Storage.public_url destination_path)) ∧
   bucket r.2 !! destination_path =
     Some (Blob image_bytes (Some (default "image/jpeg" content_type)) true) ∧
   (∀ path, path ≠ destination_path → bucket r.2 !! path = bucket w !! path)) ∧
  (fails (fate_at w 0) = true ∨ fails (fate_at w 1) = true → r.1 = Ok None).
Proof.
  intros r. subst r. rewrite fate_at_0, upload_image_from_bytes_run. cbv zeta.
  split.
  - intros -> ->. simpl. split_and!; try done.
    + apply lookup_insert_eq.
    + intros path Hne. by rewrite !lookup_insert_ne.
  - intros [-> | ->]; [done|]. by destruct (fails (next_fate w)).
Qed.

(** X5.  [delete_image] returns true exactly when the path is a string,
    the platform serves the request and the bucket holds an object there;
    it then removes that object and no other.  In every other case the
    bucket is as it was: a caller cannot tell an object that was not there
    from a delete that failed. *)
Theorem delete_image_outcomes (w : world) (storage_path : value) :
  let r := delete_image storage_path w in
  (r.1 = Ok true ∨ r.1 = Ok false) ∧
  (r.1 = Ok true ↔
     ∃ s, storage_path = VStr s ∧ fails (fate_at w 0) = false ∧
          is_Some (bucket w !! s)) ∧
  (∀ s, r.1 = Ok true → storage_path = VStr s →
        bucket r.2 = delete s (bucket w)) ∧
  (r.1 = Ok false → bucket r.2 = bucket w) ∧
  docs r.2 = docs w.
Proof.
  intros r. subst r. rewrite fate_at_0, delete_image_run.
  destruct storage_path as [| | |s| | | |];
    try (split_and!; [by right | naive_solver | done | done | done]).
  cbv zeta. destruct (fails (next_fate w)) eqn:Hf.
  { split_and!; [by right | naive_solver | done | done | done]. }
  destruct (bucket w !! s) as [b|] eqn:Hb.
  - split_and!; [by left | | | done | done].
    + split; [|done]. intros _. exists s. by rewrite Hb.
    + by intros s' _ [= <-].
  - split_and!; [by right | | done | done | done].
    split; [done|]. intros (s' & [= <-] & _ & Hsome). rewrite Hb in Hsome.
    by destruct Hsome.
Qed.

(** X6.  An object that was uploaded can be deleted once: after a
    successful [upload_image_from_bytes], a served [delete_image] of the
    same path returns true and the object is gone, and a second
    [delete_image] of that path returns false. *)
Theorem upload_delete_delete
    (w : world) (image_bytes path : string) (content_type : option string) :
  fails (fate_at w 0) = false →
  fails (fate_at w 1) = false →
  fails (fate_at w 2) = false →
  let w1 := (upload_image_from_bytes image_bytes path content_type w).2 in
  let w2 := (delete_image (VStr path) w1).2 in
  (delete_image (VStr path) w1).1 = Ok true ∧
  bucket w2 !! path = None ∧
  (delete_image (VStr path) w2).1 = Ok false.
Proof.
  intros H0 H1 H2 w1 w2. subst w2 w1. rewrite fate_at_0 in H0.
  rewrite upload_image_from_bytes_run. cbv zeta. rewrite H0, H1. cbn [snd].
  rewrite !delete_image_run. cbv zeta.
  set (w3 := set_bucket _ (sending _ (set_bucket _ (sending _ w)))).
  assert (Hf : fails (next_fate w3) = false).
  { rewrite <- H2. f_equal. unfold next_fate, fate_at, w3. simpl.
    by destruct (tape w) as [|? [|? [|? ?]]]. }
  assert (Hb : bucket w3 !! path = Some (Blob image_bytes (Some (default "image/jpeg" content_type)) true)).
  { unfold w3. simpl. apply lookup_insert_eq. }
  rewrite Hf, Hb. cbn [fst snd].
  split_and!; [done | apply lookup_delete_eq |].
  change (bucket (set_bucket (delete path) (sending (ReqBlobDelete path) w3)))
    with (delete path (bucket w3)).
  rewrite lookup_delete_eq. by case_match.
Qed.

Lemma upload_delete_delete_witness :
  let w1 := (upload_image_from_bytes "PNG" "a.png" (Some "image/png") studio).2 in
  let w2 := (delete_image (VStr "a.png") w1).2 in
  (delete_image (VStr "a.png") w1).1 = Ok true ∧
  bucket w2 !! "a.png" = None ∧
  (delete_image (VStr "a.png") w2).1 = Ok false.
Proof.
  apply (upload_delete_delete studio "PNG" "a.png" (Some "image/png")); reflexivity.
Defined.

(* ===================================================================== *)
(** ** Identity, and what the lookups leave alone *)
(* ===================================================================== *)

Lemma verify_token_run id_token w :
  verify_token id_token w =
    (Ok (if fails (next_fate w) then None else sessions w !! id_token),
     sending (ReqVerifyToken id_token) w).
Proof.
  unfold verify_token, verify_token_try, Auth.verify_id_token. unfold_monad.
  destruct (fails (next_fate w)); [done|]. simpl.
  by destruct (sessions w !! id_token).
Qed.

Lemma get_user_run uid w :
  get_user uid w =
    (Ok (if fails (next_fate w) then None
         else user ← accounts w !! uid;
              Some [("uid", VStr (acc_uid user));
                    ("email", acc_email user);
                    ("display_name", acc_display_name user);
                    ("photo_url", acc_photo_url user);
                    ("email_verified", acc_email_verified user)]),
     sending (ReqGetUser uid) w).
Proof.
  unfold get_user, get_user_try, Auth.get_user. unfold_monad.
  destruct (fails (next_fate w)); [done|]. simpl.
  by destruct (accounts w !! uid).
Qed.

Lemma create_custom_token_run uid w :
  create_custom_token uid w =
    (Ok (if fails (next_fate w) then None else Some (signer w uid)),
     sending (ReqCustomToken uid) w).
Proof.
  unfold create_custom_token, create_custom_token_try, Auth.create_custom_token.
  unfold_monad. by destruct (fails (next_fate w)).
Qed.

(** X7.  [verify_token] returns the decoded token exactly when the
    platform serves the request and knows the token; an unknown token and a
    failed request both give [None], which the caller cannot tell apart. *)
Theorem verify_token_outcomes (w : world) (id_token : string) :
  let r := (verify_token id_token w).1 in
  (∀ decoded, r = Ok (Some decoded) ↔
     fails (fate_at w 0) = false ∧ sessions w !! id_token = Some decoded) ∧
  (r = Ok None ↔
     fails (fate_at w 0) = true ∨ sessions w !! id_token = None).
Proof.
  intros r. subst r. rewrite fate_at_0, verify_token_run. simpl.
  destruct (fails (next_fate w)); [naive_solver|].
  destruct (sessions w !! id_token); naive_solver.
Qed.

(** X8.  For a user the platform knows, and a request it serves,
    [get_user] returns a profile of exactly the five fields [uid],
    [email], [display_name], [photo_url] and [email_verified], taken from
    the account; for an unknown user, or a failed request, it returns
    [None]. *)
Theorem get_user_profile (w : world) (uid : string) :
  let r := (get_user uid w).1 in
  (∀ user, fails (fate_at w 0) = false → accounts w !! uid = Some user →
     ∃ profile,
       r = Ok (Some profile) ∧
       Py.keys profile =
         ["uid"; "email"; "display_name"; "photo_url"; "email_verified"] ∧
       Py.get profile "uid" = VStr (acc_uid user) ∧
       Py.get profile "email" = acc_email user ∧
       Py.get profile "display_name" = acc_display_name user ∧
       Py.get profile "photo_url" = acc_photo_url user ∧
       Py.get profile "email_verified" = acc_email_verified user) ∧
  (fails (fate_at w 0) = true ∨ accounts w !! uid = None → r = Ok None).
Proof.
  intros r. subst r. rewrite fate_at_0, get_user_run. simpl. split.
  - intros user -> ->. simpl. eexists. split; [reflexivity|]. by repeat split.
  - intros [-> | ->]; [done|]. by destruct (fails (next_fate w)).
Qed.

Lemma same_stores_sending r w : same_stores w (sending r w).
Proof. by repeat split. Qed.

(** X9.  The five lookups of the facade, [verify_token], [get_user],
    [create_custom_token], [get_presentation] and
    [get_user_presentations], change nothing that is stored: the
    collection, the bucket, the identity platform, the local files and the
    caller's dictionaries are after the call what they were before. *)
Theorem lookups_change_nothing (w : world) :
  (∀ t, same_stores w (verify_token t w).2) ∧
  (∀ u, same_stores w (get_user u w).2) ∧
  (∀ u, same_stores w (create_custom_token u w).2) ∧
  (∀ i u, same_stores w (get_presentation i u w).2) ∧
  (∀ u l, same_stores w (get_user_presentations u l w).2).
Proof.
  split_and!; intros.
  - rewrite verify_token_run. apply same_stores_sending.
  - rewrite get_user_run. apply same_stores_sending.
  - rewrite create_custom_token_run. apply same_stores_sending.
  - rewrite get_presentation_run. apply same_stores_sending.
  - rewrite get_user_presentations_run. apply same_stores_sending.
Qed.

(* ===================================================================== *)
(** ** Creating, and reading back *)
(* ===================================================================== *)

(** X10.  What [create_presentation] has stored can be read back: once the
    platform serves the read, [get_presentation] of the returned id gives
    the owner the stored record, and gives [None] to every other non-empty
    requester. *)
Theorem create_then_get
    (w w' : world) (owner_id ppt_id : string) (data : pydict) :
  create_presentation owner_id data w = (Ok ppt_id, w') →
  fails (next_fate w') = false →
  ∃ record,
    docs w' !! ppt_id = Some record ∧
    (get_presentation ppt_id (Some owner_id) w').1 = Ok (Some record) ∧
    (get_presentation ppt_id None w').1 = Ok (Some record) ∧
    (∀ other, other ≠ "" → other ≠ owner_id →
       (get_presentation ppt_id (Some other) w').1 = Ok None).
Proof.
  rewrite create_presentation_run. cbv zeta.
  destruct (Py.len _) as [n|e]; [|discriminate].
  destruct (fails (next_fate w)); [discriminate|].
  intros Hrun Hserved.
  apply (f_equal snd) in Hrun as Hw. apply (f_equal fst) in Hrun as Hid.
  cbn [fst snd] in Hw, Hid. assert (uuid_tape w (uuid_next w) = ppt_id) by congruence.
  subst w' ppt_id. clear Hrun Hid.
  set (ppt_id := uuid_tape w (uuid_next w)) in *.
  set (record := Firestore.stamp _ (doc_data ppt_id owner_id data n)) in *.
  set (w' := set_docs _ _) in *.
  assert (Hdoc : docs w' !! ppt_id = Some record) by apply lookup_insert_eq.
  assert (Hget : ∀ requester,
            (get_presentation ppt_id requester w').1 =
              Ok (if Py.truthy_opt requester
                     && negb (Py.eq_opt (VStr owner_id) requester)
                  then None else Some record)).
  { intros requester. by rewrite get_presentation_run, Hserved, Hdoc. }
  exists record. rewrite !Hget. split_and!; try done.
  - simpl. rewrite String.eqb_refl. by destruct (negb _).
  - intros other Hne Hother. rewrite Hget. simpl.
    apply String.eqb_neq in Hne as ->.
    assert (String.eqb owner_id other = false) as ->; [|done].
    apply String.eqb_neq. congruence.
Qed.

Lemma create_then_get_witness :
  (get_presentation "0" (Some "alice") shelf).1 = Ok (Some tides) ∧
  (get_presentation "0" (Some "bob") shelf).1 = Ok None.
Proof.
  destruct (create_then_get quiet shelf "alice" "0" deck eq_refl eq_refl)
    as (record & Hdoc & Hown & _ & Hother).
  injection Hdoc as <-.
  split; [exact Hown | apply Hother; discriminate].
Defined.

(** X13.  A [create_presentation] that raises has stored nothing: the
    collection is what it was; and when it raises because the slides have
    no length, no request has been sent at all. *)
Theorem create_presentation_failure_stores_nothing
    (w : world) (owner_id : string) (data : pydict) (e : exn) :
  (create_presentation owner_id data w).1 = Raise e →
  docs (create_presentation owner_id data w).2 = docs w ∧
  (Py.len (Py.get_default data "slides" (VList [])) = Raise e →
   sent (create_presentation owner_id data w).2 = sent w).
Proof.
  rewrite create_presentation_run. cbv zeta.
  destruct (Py.len _) as [n|e']; [|done].
  by destruct (fails (next_fate w)).
Qed.

Lemma create_presentation_failure_stores_nothing_witness :
  docs (create_presentation "bob" [("slides", VInt 3)] shelf).2 = docs shelf ∧
  sent (create_presentation "bob" [("slides", VInt 3)] shelf).2 = sent shelf.
Proof.
  destruct (create_presentation_failure_stores_nothing shelf "bob"
              [("slides", VInt 3)] TypeError eq_refl) as [Hdocs Hsent].
  split; [exact Hdocs | exact (Hsent eq_refl)].
Defined.

(* ---------------- stored ids are issued ids ---------------- *)

Lemma extends_refl w : extends w w.
Proof. split; [done|]. intros id Hid. by left. Qed.

Lemma extends_trans w1 w2 w3 : extends w1 w2 → extends w2 w3 → extends w1 w3.
Proof.
  intros [Hi1 Hd1] [Hi2 Hd2]. split; [set_solver|].
  intros id Hid. destruct (Hd2 id Hid) as [Hold|Hnew]; [|by right].
  destruct (Hd1 id Hold) as [Hold'|Hnew]; [by left|]. right. set_solver.
Qed.

Lemma extends_ids_issued w w' : ids_issued w → extends w w' → ids_issued w'.
Proof.
  intros Hok [Hi Hd] id Hid. destruct (Hd id Hid) as [Hold|Hnew]; [|done].
  apply Hi. by apply Hok.
Qed.

Lemma extends_same w w' :
  docs w' = docs w → uuid_tape w' = uuid_tape w → uuid_next w' = uuid_next w →
  extends w w'.
Proof.
  intros Hd Ht Hn. unfold extends, issued. rewrite Hd, Ht, Hn.
  split; [done|]. intros id Hid. by left.
Qed.

Lemma extends_delete id w : extends w (set_docs (delete id) w).
Proof.
  split; [done|]. intros id' Hid. left. simpl in Hid.
  destruct Hid as [d Hd]. apply lookup_delete_Some in Hd as [_ Hd]. by eexists.
Qed.

Lemma extends_insert id d w :
  is_Some (docs w !! id) ∨ id ∈ issued w → extends w (set_docs (insert id d) w).
Proof.
  intros Hid. split; [done|]. intros id' Hid'. simpl in Hid'.
  destruct (decide (id = id')) as [<-|Hne]; [done|].
  left. by rewrite lookup_insert_ne in Hid'.
Qed.

Lemma orderly_ret {A} (a : A) : orderly (mret a : M A).
Proof. intros w. apply extends_refl. Qed.

Lemma orderly_raise {A} e : orderly (raise e : M A).
Proof. intros w. apply extends_refl. Qed.

Lemma orderly_lift {A} (o : outcome A) : orderly (lift o).
Proof. intros w. apply extends_refl. Qed.

Lemma orderly_bind {A B} (m : M A) (k : A → M B) :
  orderly m → (∀ a, orderly (k a)) → orderly (m ≫= k).
Proof.
  intros Hm Hk w. unfold mbind, M_bind, bind.
  specialize (Hm w). destruct (m w) as [[a|e] w1]; [|done].
  eapply extends_trans; [done | apply Hk].
Qed.

Lemma orderly_try {A} (body : M A) handler :
  orderly body → (∀ e, orderly (handler e)) → orderly (try_except body handler).
Proof.
  intros Hm Hh w. unfold try_except.
  specialize (Hm w). destruct (body w) as [[a|e] w1]; [done|].
  eapply extends_trans; [done | apply Hh].
Qed.

Lemma orderly_call {A} r (serve : M A) : orderly serve → orderly (call r serve).
Proof.
  intros Hs w. unfold call. destruct (fails (next_fate w)).
  - by apply extends_same.
  - apply (extends_trans _ (sending r w)); [by apply extends_same | apply Hs].
Qed.

Lemma orderly_for_each {A} (xs : list A) body :
  (∀ x, orderly (body x)) → orderly (for_each xs body).
Proof.
  intros Hb. induction xs as [|x xs IH]; simpl.
  - apply orderly_ret.
  - apply orderly_bind; [apply Hb | done].
Qed.

Lemma orderly_same {A} (serve : M A) :
  (∀ w, docs (serve w).2 = docs w ∧ uuid_tape (serve w).2 = uuid_tape w ∧
        uuid_next (serve w).2 = uuid_next w) →
  orderly serve.
Proof. intros H w. destruct (H w) as (? & ? & ?). by apply extends_same. Qed.

Create HintDb orderly discriminated.
#[local] Hint Resolve orderly_ret orderly_raise orderly_lift orderly_bind
  orderly_try orderly_call orderly_for_each : orderly.

Lemma orderly_doc_get id : orderly (Firestore.doc_get id).
Proof. apply orderly_call, orderly_same. by intros w. Qed.

Lemma orderly_doc_delete id : orderly (Firestore.doc_delete id).
Proof. apply orderly_call. intros w. apply extends_delete. Qed.

Lemma orderly_query owner limit : orderly (Firestore.query owner limit).
Proof. apply orderly_call, orderly_same. by intros w. Qed.

Lemma orderly_put path content ct : orderly (Storage.put path content ct).
Proof. apply orderly_call, orderly_same. by intros w. Qed.

Lemma orderly_upload_from_filename path image_path :
  orderly (Storage.upload_from_filename path image_path).
Proof.
  intros w. unfold Storage.upload_from_filename.
  destruct (files w !! image_path); [apply orderly_put | apply extends_refl].
Qed.

Lemma orderly_make_public path : orderly (Storage.make_public path).
Proof.
  apply orderly_call, orderly_same. intros w. simpl.
  by destruct (bucket w !! path).
Qed.

Lemma orderly_delete_blob path : orderly (Storage.delete_blob path).
Proof.
  apply orderly_call, orderly_same. intros w. simpl.
  by destruct (bucket w !! path).
Qed.

Lemma orderly_verify_id_token t : orderly (Auth.verify_id_token t).
Proof.
  apply orderly_call, orderly_same. intros w. simpl. by destruct (sessions w !! t).
Qed.

Lemma orderly_auth_get_user u : orderly (Auth.get_user u).
Proof.
  apply orderly_call, orderly_same. intros w. simpl. by destruct (accounts w !! u).
Qed.

Lemma orderly_auth_create_custom_token u : orderly (Auth.create_custom_token u).
Proof. apply orderly_call, orderly_same. by intros w. Qed.

#[local] Hint Resolve orderly_doc_get orderly_doc_delete orderly_query orderly_put
  orderly_upload_from_filename orderly_make_public orderly_delete_blob
  orderly_verify_id_token orderly_auth_get_user orderly_auth_create_custom_token
  : orderly.

Lemma orderly_delete_image p : orderly (delete_image p).
Proof. unfold delete_image, delete_image_try. auto 10 with orderly. Qed.

#[local] Hint Resolve orderly_delete_image : orderly.

Lemma orderly_delete_slide_image slide : orderly (delete_slide_image slide).
Proof.
  unfold delete_slide_image. apply orderly_bind; [auto with orderly|].
  intros p. destruct (Py.truthy p); auto 10 with orderly.
Qed.

#[local] Hint Resolve orderly_delete_slide_image : orderly.

Lemma orderly_create_presentation u d : orderly (create_presentation u d).
Proof.
  intros w. rewrite create_presentation_run. cbv zeta.
  assert (Hnew : issued (uuid4 w).2 = issued w ++ [uuid_tape w (uuid_next w)])
    by apply issued_uuid4.
  assert (Hgrow : issued w ⊆ issued (uuid4 w).2).
  { rewrite Hnew. set_solver. }
  destruct (Py.len _) as [n|e].
  2:{ split; [done|]. intros id Hid. by left. }
  destruct (fails (next_fate w)).
  { split; [done|]. intros id Hid. by left. }
  split; [done|]. intros id Hid. cbn [snd] in Hid.
  change (docs (set_docs ?f ?x)) with (f (docs x)) in Hid.
  destruct (decide (id = uuid_tape w (uuid_next w))) as [->|Hne].
  - right. change (uuid_tape w (uuid_next w) ∈ issued (uuid4 w).2).
    rewrite Hnew. set_solver.
  - left. by rewrite lookup_insert_ne in Hid.
Qed.

Lemma orderly_update_presentation i u l : orderly (update_presentation i u l).
Proof.
  intros w. rewrite update_presentation_run. cbv zeta.
  destruct (fails (next_fate w)); [by apply extends_same|].
  destruct (docs w !! i) as [old|] eqn:Hold; [|by apply extends_same].
  destruct (negb _); [by apply extends_same|].
  destruct (heap w !! l) as [patch|]; [|by apply extends_same].
  destruct (fails (fate_at w 1)); [by apply extends_same|].
  split; [done|]. intros id Hid. left. cbn [snd] in Hid.
  change (docs (set_docs ?f ?x)) with (f (docs x)) in Hid.
  destruct (decide (id = i)) as [->|Hne]; [by rewrite Hold|].
  by rewrite lookup_insert_ne in Hid.
Qed.

Lemma exec_extends o w : extends w (exec o w).
Proof.
  destruct o; simpl.
  - apply (orderly_try _ _); auto with orderly.
    unfold verify_token_try. auto with orderly.
  - apply (orderly_try _ _); auto with orderly.
    unfold get_user_try. auto with orderly.
  - apply (orderly_try _ _); auto with orderly.
    unfold create_custom_token_try. auto with orderly.
  - apply (orderly_try _ _); auto with orderly.
    unfold upload_image_try. auto 10 with orderly.
  - apply (orderly_try _ _); auto with orderly.
    unfold upload_image_from_bytes_try. auto 10 with orderly.
  - apply orderly_delete_image.
  - apply orderly_create_presentation.
  - apply (orderly_try _ _); auto with orderly. unfold get_presentation_try.
    apply orderly_bind; [auto with orderly|]. intros [data|]; [|auto with orderly].
    destruct (_ && _); auto with orderly.
  - apply orderly_update_presentation.
  - apply (orderly_try _ _); auto with orderly. unfold delete_presentation_try.
    apply orderly_bind; [auto with orderly|]. intros [data|]; [|auto with orderly].
    destruct (negb _); auto 10 with orderly.
  - apply (orderly_try _ _); auto with orderly. unfold get_user_presentations_try.
    auto 10 with orderly.
Qed.

(** X11.  In every world the facade brings about from an empty collection,
    each record is stored under an id that [uuid4] handed out. *)
Theorem reachable_ids_issued (w : world) : reachable w → ids_issued w.
Proof.
  induction 1 as [w Hempty | o w _ IH].
  - intros id [d Hd]. rewrite Hempty in Hd. by rewrite lookup_empty in Hd.
  - eapply extends_ids_issued; [done | apply exec_extends].
Qed.

Lemma reachable_shelf : reachable shelf.
Proof.
  apply (reachable_step (OpCreatePresentation "alice" deck) quiet).
  by apply reachable_init.
Qed.

Lemma reachable_ids_issued_witness : ids_issued shelf.
Proof. apply reachable_ids_issued. exact reachable_shelf. Defined.

Lemma ids_issued_shelf : ids_issued shelf.
Proof.
  intros id [d Hd]. change (docs shelf) with (<["0" := tides]> (∅ : gmap string pydict)) in Hd.
  apply lookup_insert_Some in Hd as [[<- _]|[_ Hd]]; [by left|].
  by rewrite lookup_empty in Hd.
Qed.

Lemma uuid_unique_shelf : uuid_unique shelf.
Proof. intros i j H. by apply (inj pretty). Qed.

(** X12.  [create_presentation] never overwrites: where every stored id
    was issued by a [uuid4] that does not repeat, a successful create
    stores its record under an id that held none, and every record that
    was stored is still stored, unchanged. *)
Theorem create_presentation_keeps_records
    (w w' : world) (owner_id ppt_id : string) (data : pydict) :
  ids_issued w →
  uuid_unique w →
  create_presentation owner_id data w = (Ok ppt_id, w') →
  docs w !! ppt_id = None ∧
  (∀ id record, docs w !! id = Some record → docs w' !! id = Some record).
Proof.
  intros Hids Huniq. rewrite create_presentation_run. cbv zeta.
  destruct (Py.len _) as [n|e]; [|discriminate].
  destruct (fails (next_fate w)); [discriminate|].
  intros [= <- <-].
  assert (Hfree : docs w !! uuid_tape w (uuid_next w) = None).
  { apply eq_None_not_Some. intros Hsome%Hids. by apply issued_fresh in Hsome. }
  split; [done|]. intros id record Hrec.
  change (docs (set_docs ?f ?x)) with (f (docs x)).
  rewrite lookup_insert_ne; [done|]. intros <-. simpl in Hfree. congruence.
Qed.

Lemma create_presentation_keeps_records_witness :
  docs shelf !! "1" = None ∧
  docs (create_presentation "bob" [] shelf).2 !! "0" = Some tides.
Proof.
  destruct (create_presentation_keeps_records shelf
              (create_presentation "bob" [] shelf).2 "bob" "1" []
              ids_issued_shelf uuid_unique_shelf eq_refl) as [Hfree Hkeep].
  split; [exact Hfree | by apply Hkeep].
Defined.

(* ===================================================================== *)
(** ** Who may change a record, and what a change touches *)
(* ===================================================================== *)

Lemma delete_slide_image_docs slide w :
  docs (delete_slide_image slide w).2 = docs w.
Proof.
  unfold delete_slide_image. unfold_monad.
  destruct (Py.value_get slide "image_storage_path") as [p|e]; [|done].
  destruct (Py.truthy p); [|done].
  destruct (Py.value_getitem slide "image_storage_path") as [path|e]; [|done].
  rewrite delete_image_run. destruct path; try done. cbv zeta.
  destruct (fails (next_fate w)); [done|]. by destruct (bucket w !! s).
Qed.

Lemma for_each_delete_slide_image_docs slides w :
  docs (for_each slides delete_slide_image w).2 = docs w.
Proof.
  revert w. induction slides as [|slide slides IH]; intros w; [done|].
  cbn [for_each]. unfold mbind, M_bind, bind.
  pose proof (delete_slide_image_docs slide w) as Hd.
  destruct (delete_slide_image slide w) as [[[]|e] w1]; [|done].
  simpl in Hd. by rewrite IH.
Qed.

Lemma delete_presentation_run ppt_id user_id w :
  delete_presentation ppt_id user_id w =
    let w1 := sending (ReqDocGet ppt_id) w in
    if fails (next_fate w) then (Ok false, w1)
    else match docs w !! ppt_id with
         | None => (Ok false, w1)
         | Some data =>
             if negb (Py.eq_str (Py.get data "user_id") user_id)
             then (Ok false, w1)
             else match Py.iter (Py.get_default data "slides" (VList [])) with
                  | Raise _ => (Ok false, w1)
                  | Ok slides =>
                      match for_each slides delete_slide_image w1 with
                      | (Raise _, w2) => (Ok false, w2)
                      | (Ok _, w2) =>
                          let w3 := sending (ReqDocDelete ppt_id) w2 in
                          if fails (next_fate w2) then (Ok false, w3)
                          else (Ok true, set_docs (delete ppt_id) w3)
                      end
                  end
         end.
Proof.
  unfold delete_presentation, delete_presentation_try, Firestore.doc_get,
    Firestore.doc_delete. unfold_monad.
  destruct (fails (next_fate w)); [done|]. simpl.
  destruct (docs w !! ppt_id) as [data|]; [|done].
  destruct (negb _); [done|].
  destruct (Py.iter _) as [slides|e]; [|done]. simpl.
  destruct (for_each slides delete_slide_image _) as [[[]|e] w2]; [|done].
  by destruct (fails (next_fate w2)).
Qed.

(** X14.  A requester who does not own the record, or who names an id
    under which nothing is stored, changes nothing by
    [update_presentation] or [delete_presentation]: both return false
    after the one read of the record, and the collection, the bucket and
    the caller's dictionaries are what they were. *)
Theorem denied_changes_nothing
    (w : world) (ppt_id requester_id : string) (updates : nat) :
  docs w !! ppt_id = None ∨
  (∃ data, docs w !! ppt_id = Some data ∧
           Py.get data "user_id" ≠ VStr requester_id) →
  update_presentation ppt_id requester_id updates w
    = (Ok false, sending (ReqDocGet ppt_id) w) ∧
  delete_presentation ppt_id requester_id w
    = (Ok false, sending (ReqDocGet ppt_id) w) ∧
  same_stores w (sending (ReqDocGet ppt_id) w) ∧
  sent (sending (ReqDocGet ppt_id) w) = sent w ++ [ReqDocGet ppt_id].
Proof.
  intros Hdenied. rewrite update_presentation_run, delete_presentation_run.
  cbv zeta. split_and!; try done.
  - destruct (fails (next_fate w)); [done|].
    destruct Hdenied as [-> | (data & -> & Hown%eq_str_false)]; [done|].
    by rewrite Hown.
  - destruct (fails (next_fate w)); [done|].
    destruct Hdenied as [-> | (data & -> & Hown%eq_str_false)]; [done|].
    by rewrite Hown.
Qed.

Lemma denied_changes_nothing_witness :
  (update_presentation "0" "bob" 7 desk).1 = Ok false ∧
  (delete_presentation "0" "bob" desk).1 = Ok false ∧
  docs (delete_presentation "0" "bob" desk).2 !! "0" = Some tides.
Proof.
  destruct (denied_changes_nothing desk "0" "bob" 7) as (Hu & Hd & _ & _).
  - right. exists tides. split; [reflexivity | discriminate].
  - rewrite Hu, Hd. by split_and!.
Defined.

(** X15.  Whatever their outcome, [update_presentation] and
    [delete_presentation] leave every record stored under another id as it
    was, and [update_presentation] leaves the bucket as it was. *)
Theorem other_records_untouched
    (w : world) (ppt_id requester_id : string) (updates : nat) :
  (∀ id, id ≠ ppt_id →
     docs (update_presentation ppt_id requester_id updates w).2 !! id
       = docs w !! id) ∧
  bucket (update_presentation ppt_id requester_id updates w).2 = bucket w ∧
  (∀ id, id ≠ ppt_id →
     docs (delete_presentation ppt_id requester_id w).2 !! id = docs w !! id).
Proof.
  rewrite update_presentation_run, delete_presentation_run. cbv zeta.
  split_and!.
  - intros id Hne. repeat case_match; try done.
    cbn [snd]. change (docs (set_docs ?f ?x)) with (f (docs x)).
    by rewrite lookup_insert_ne.
  - by repeat case_match.
  - intros id Hne.
    destruct (fails (next_fate w)); [done|].
    destruct (docs w !! ppt_id) as [data|]; [|done].
    destruct (negb _); [done|].
    destruct (Py.iter _) as [slides|e]; [|done].
    pose proof (for_each_delete_slide_image_docs slides
                  (sending (ReqDocGet ppt_id) w)) as Hd.
    destruct (for_each slides delete_slide_image _) as [[[]|e] w2];
      cbn [snd] in Hd |- *; [|by rewrite Hd].
    destruct (fails (next_fate w2)); cbn [snd].
    + change (docs (sending ?r ?x)) with (docs x). by rewrite Hd.
    + change (docs (set_docs ?f (sending ?r ?x))) with (f (docs x)).
      rewrite lookup_delete_ne by done. by rewrite Hd.
Qed.

(** X16.  The owner of a record is not fixed: a successful
    [update_presentation] whose patch names another [user_id] hands the
    record over.  Afterwards [get_presentation] answers [None] to the
    former owner and gives the record to the new one, and the former owner
    can no longer update it. *)
Theorem update_presentation_hands_over
    (w w' : world) (ppt_id owner_id other : string) (updates : nat)
    (patch : pydict) :
  update_presentation ppt_id owner_id updates w = (Ok true, w') →
  heap w !! updates = Some patch →
  Py.lookup patch "user_id" = Some (VStr other) →
  other ≠ owner_id →
  owner_id ≠ "" →
  fails (next_fate w') = false →
  (get_presentation ppt_id (Some owner_id) w').1 = Ok None ∧
  (∃ record, (get_presentation ppt_id (Some other) w').1 = Ok (Some record) ∧
             Py.get record "user_id" = VStr other) ∧
  (∀ updates', (update_presentation ppt_id owner_id updates' w').1 = Ok false).
Proof.
  intros (old & patch' & Hold & Hpatch' & Hdocs)%update_presentation_true
         Hpatch Huser Hother Howner Hserved.
  assert (patch' = patch) as -> by congruence.
  set (record := Firestore.merge old _) in Hdocs.
  assert (Hdoc : docs w' !! ppt_id = Some record).
  { rewrite Hdocs. apply lookup_insert_eq. }
  assert (Hnew : Py.get record "user_id" = VStr other).
  { unfold Py.get, record.
    by rewrite lookup_merge, lookup_stamp, lookup_set_ne, Huser. }
  split_and!.
  - rewrite get_presentation_run, Hserved, Hdoc, Hnew. simpl.
    apply String.eqb_neq in Howner as ->.
    apply String.eqb_neq in Hother as ->. done.
  - exists record. split; [|done].
    rewrite get_presentation_run, Hserved, Hdoc, Hnew. simpl.
    rewrite String.eqb_refl. by destruct (negb _).
  - intros updates'. rewrite update_presentation_run. cbv zeta.
    rewrite Hserved, Hdoc, Hnew. simpl.
    by apply String.eqb_neq in Hother as ->.
Qed.

Lemma update_presentation_hands_over_witness :
  let w := set_heap (insert 7 [("user_id", VStr "bob")]) shelf in
  let w' := (update_presentation "0" "alice" 7 w).2 in
  (update_presentation "0" "alice" 7 w).1 = Ok true ∧
  (get_presentation "0" (Some "alice") w').1 = Ok None ∧
  (update_presentation "0" "alice" 7 w').1 = Ok false.
Proof.
  intros w w'.
  destruct (update_presentation_hands_over w w' "0" "alice" "bob" 7
              [("user_id", VStr "bob")]) as (Hget & _ & Hupd);
    try reflexivity; try discriminate.
  split_and!; [reflexivity | exact Hget | apply Hupd].
Defined.

(* ===================================================================== *)
(** ** Deleting a presentation and its images *)
(* ===================================================================== *)

Lemma fate_at_drop w w' k i :
  tape w' = drop k (tape w) → fate_at w' i = fate_at w (k + i).
Proof.
  unfold fate_at. intros ->. rewrite !nth_lookup. by rewrite lookup_drop.
Qed.

Lemma served_drop w w' k n :
  tape w' = drop k (tape w) → served w (k + n) → served w' n.
Proof.
  intros Htape Hs i Hi. rewrite (fate_at_drop w w' k i Htape). apply Hs. lia.
Qed.

Lemma served_le w n m : m ≤ n → served w n → served w m.
Proof. intros Hle Hs i Hi. apply Hs. lia. Qed.

Lemma lookup_foldl_delete {A} (m : gmap string A) ps q :
  foldl (λ b p, delete p b) m ps !! q = if decide (q ∈ ps) then None else m !! q.
Proof.
  revert m. induction ps as [|p ps IH]; intros m; cbn [foldl].
  - case_decide as H; [by apply elem_of_nil in H | done].
  - rewrite IH.
    destruct (decide (q ∈ ps)) as [Hin|Hnin];
      destruct (decide (q ∈ p :: ps)) as [Hin'|Hnin']; try done.
    + exfalso. set_solver.
    + apply elem_of_cons in Hin' as [->|?]; [|done]. apply lookup_delete_eq.
    + apply lookup_delete_ne. set_solver.
Qed.

Lemma delete_slide_image_served slide w :
  slide_ok slide →
  served w (length (option_list (asset_path slide))) →
  bucket (delete_slide_image slide w).2 =
    foldl (λ b p, delete p b) (bucket w) (option_list (asset_path slide)).
Proof.
  destruct slide as [| | | | | | |d]; try done. simpl.
  unfold delete_slide_image. unfold_monad. simpl.
  unfold Py.get, Py.getitem.
  destruct (Py.lookup d "image_storage_path") as [[| | |s| | | |]|] eqn:E;
    simpl; try done.
  intros _. destruct (String.eqb s "") eqn:Es; simpl; [done|].
  intros Hs. specialize (Hs 0 (Nat.lt_0_succ 0)). rewrite fate_at_0 in Hs.
  rewrite delete_image_run. cbv zeta. rewrite Hs.
  destruct (bucket w !! s) eqn:Hb; simpl; [done|].
  symmetry. by apply delete_id.
Qed.

Lemma for_each_delete_slide_image_served slides w :
  Forall slide_ok slides →
  served w (length (asset_paths slides)) →
  bucket (for_each slides delete_slide_image w).2 =
    foldl (λ b p, delete p b) (bucket w) (asset_paths slides).
Proof.
  intros Hok. revert w. induction Hok as [|slide slides Hslide _ IH]; intros w Hs.
  - done.
  - cbn [for_each]. unfold mbind, M_bind, bind.
    assert (Hpaths : asset_paths (slide :: slides) =
                       option_list (asset_path slide) ++ asset_paths slides).
    { unfold asset_paths. simpl. by destruct (asset_path slide). }
    rewrite Hpaths, length_app in Hs. rewrite Hpaths, foldl_app.
    destruct (delete_slide_image_ok slide w Hslide) as (H1 & _ & _ & H4).
    pose proof (delete_slide_image_served slide w Hslide
                  (served_le _ _ _ (Nat.le_add_r _ _) Hs)) as Hb.
    destruct (delete_slide_image slide w) as [[[]|e] w1]; [|done].
    cbn [fst snd] in *. rewrite <- Hb. apply IH.
    by apply (served_drop w w1 (length (option_list (asset_path slide)))).
Qed.

(** X17.  When the platform serves every request of an owner's
    [delete_presentation] on a record whose slides are mappings, the images
    go with the record: the bucket no longer holds an object at any storage
    path a slide carried, and holds every other object as before. *)
Theorem delete_presentation_removes_images
    (w : world) (ppt_id requester_id : string) (data : pydict) (slides : list value) :
  docs w !! ppt_id = Some data →
  Py.get data "user_id" = VStr requester_id →
  Py.get_default data "slides" (VList []) = VList slides →
  Forall slide_ok slides →
  served w (S (S (length (asset_paths slides)))) →
  let r := delete_presentation ppt_id requester_id w in
  r.1 = Ok true ∧
  docs r.2 !! ppt_id = None ∧
  (∀ path, path ∈ asset_paths slides → bucket r.2 !! path = None) ∧
  (∀ path, path ∉ asset_paths slides → bucket r.2 !! path = bucket w !! path).
Proof.
  intros Hdoc Hown%eq_str_true Hslides Hok Hs r. subst r.
  rewrite delete_presentation_run. cbv zeta.
  pose proof (Hs 0 ltac:(lia)) as H0. rewrite fate_at_0 in H0.
  rewrite H0, Hdoc, Hown, Hslides. simpl.
  set (w1 := sending (ReqDocGet ppt_id) w).
  assert (Htape1 : tape w1 = drop 1 (tape w)) by (simpl; by destruct (tape w)).
  destruct (for_each_delete_slide_image slides w1 Hok) as (L1 & _ & _ & L4).
  assert (Hs1 : served w (1 + length (asset_paths slides)))
    by (apply (served_le w (S (S (length (asset_paths slides))))); [lia | done]).
  pose proof (for_each_delete_slide_image_served slides w1 Hok
                (served_drop w w1 1 _ Htape1 Hs1)) as Lb.
  destruct (for_each slides delete_slide_image w1) as [[[]|e] w2]; [|done].
  cbn [fst snd] in *.
  assert (Hlast : fails (next_fate w2) = false).
  { rewrite <- fate_at_0.
    rewrite (fate_at_drop w1 w2 _ 0 L4), (fate_at_drop w w1 1 _ Htape1).
    apply Hs. lia. }
  rewrite Hlast. cbn [fst snd].
  change (docs (set_docs ?f ?x)) with (f (docs x)).
  change (bucket (set_docs ?f (sending ?q ?x))) with (bucket x).
  rewrite Lb. split_and!; [done | apply lookup_delete_eq | |].
  - intros path Hin. rewrite lookup_foldl_delete. by rewrite decide_True.
  - intros path Hnin. rewrite lookup_foldl_delete. by rewrite decide_False.
Qed.

Lemma served_quiet_tape w n : tape w = [] → served w n.
Proof. intros Ht i _. unfold fate_at. rewrite Ht. by destruct i. Qed.

Lemma delete_presentation_removes_images_witness :
  let r := delete_presentation "0" "alice" archive in
  bucket archive !! "users/alice/images/1.jpg" = Some (Blob "JFIF" None true) ∧
  r.1 = Ok true ∧
  bucket r.2 !! "users/alice/images/1.jpg" = None ∧
  bucket r.2 !! "logo.png" = Some (Blob "PNG" None true).
Proof.
  destruct (delete_presentation_removes_images archive "0" "alice" tides
              [VDict [("image_url", VStr "https://img/1");
                      ("image_storage_path", VStr "users/alice/images/1.jpg")];
               VDict [("title", VStr "Outline")]])
    as (Hret & _ & Hgone & Hkept); try reflexivity.
  - repeat constructor.
  - by apply served_quiet_tape.
  - split_and!; [reflexivity | exact Hret | |].
    + apply Hgone. by left.
    + rewrite Hkept; [reflexivity|]. by intros [?|?%elem_of_nil]%elem_of_cons.
Defined.

(** X18.  [delete_presentation] does not undo the deleted images when the
    delete of the record fails: with the read and the asset deletes served
    and the last request failed, it returns false and the record is still
    stored, but the bucket no longer holds the images its slides name. *)
Theorem delete_presentation_not_rolled_back
    (w : world) (ppt_id requester_id : string) (data : pydict) (slides : list value) :
  docs w !! ppt_id = Some data →
  Py.get data "user_id" = VStr requester_id →
  Py.get_default data "slides" (VList []) = VList slides →
  Forall slide_ok slides →
  served w (S (length (asset_paths slides))) →
  fails (fate_at w (S (length (asset_paths slides)))) = true →
  let r := delete_presentation ppt_id requester_id w in
  r.1 = Ok false ∧
  docs r.2 !! ppt_id = Some data ∧
  (∀ path, path ∈ asset_paths slides → bucket r.2 !! path = None).
Proof.
  intros Hdoc Hown%eq_str_true Hslides Hok Hs Hfail r. subst r.
  rewrite delete_presentation_run. cbv zeta.
  pose proof (Hs 0 ltac:(lia)) as H0. rewrite fate_at_0 in H0.
  rewrite H0, Hdoc, Hown, Hslides. simpl.
  set (w1 := sending (ReqDocGet ppt_id) w).
  assert (Htape1 : tape w1 = drop 1 (tape w)) by (simpl; by destruct (tape w)).
  destruct (for_each_delete_slide_image slides w1 Hok) as (L1 & L2 & _ & L4).
  pose proof (for_each_delete_slide_image_served slides w1 Hok
                (served_drop w w1 1 _ Htape1 Hs)) as Lb.
  destruct (for_each slides delete_slide_image w1) as [[[]|e] w2]; [|done].
  cbn [fst snd] in *.
  assert (Hlast : fails (next_fate w2) = true).
  { rewrite <- fate_at_0.
    rewrite (fate_at_drop w1 w2 _ 0 L4), (fate_at_drop w w1 1 _ Htape1).
    by rewrite Nat.add_0_r. }
  rewrite Hlast. cbn [fst snd].
  change (docs (sending ?q ?x)) with (docs x).
  change (bucket (sending ?q ?x)) with (bucket x).
  rewrite L2, Lb. split_and!; [done | done |].
  intros path Hin. rewrite lookup_foldl_delete. by rewrite decide_True.
Qed.

Lemma delete_presentation_not_rolled_back_witness :
  let w := set_tape [Fate 0 false; Fate 0 false; Fate 0 true] archive in
  let r := delete_presentation "0" "alice" w in
  r.1 = Ok false ∧
  docs r.2 !! "0" = Some tides ∧
  bucket r.2 !! "users/alice/images/1.jpg" = None.
Proof.
  intros w.
  destruct (delete_presentation_not_rolled_back w "0" "alice" tides
              [VDict [("image_url", VStr "https://img/1");
                      ("image_storage_path", VStr "users/alice/images/1.jpg")];
               VDict [("title", VStr "Outline")]])
    as (Hret & Hdoc & Hgone); try reflexivity.
  - repeat constructor.
  - intros [|[|i]] Hi; [reflexivity | reflexivity | simpl in Hi; lia].
  - split_and!; [exact Hret | exact Hdoc | apply Hgone; by left].
Defined.

Lemma for_each_app {A} (xs ys : list A) body w :
  for_each (xs ++ ys) body w =
    match for_each xs body w with
    | (Ok _, w1) => for_each ys body w1
    | (Raise e, w1) => (Raise e, w1)
    end.
Proof.
  revert w. induction xs as [|x xs IH]; intros w; simpl; [done|].
  unfold mbind, M_bind, bind. destruct (body x w) as [[[]|e] w1]; [|done].
  apply IH.
Qed.

(** X19.  A slide that is not a mapping stops [delete_presentation]: it
    returns false and the record stays stored (with every other record),
    although the images of the slides before that one have been asked to
    be deleted and no request is sent for the slides after it. *)
Theorem delete_presentation_stops_at_bad_slide
    (w : world) (ppt_id requester_id : string) (data : pydict)
    (good rest : list value) (bad : value) :
  docs w !! ppt_id = Some data →
  Py.get data "user_id" = VStr requester_id →
  Py.get_default data "slides" (VList []) = VList (good ++ bad :: rest) →
  Forall slide_ok good →
  (∀ d, bad ≠ VDict d) →
  fails (fate_at w 0) = false →
  let r := delete_presentation ppt_id requester_id w in
  r.1 = Ok false ∧
  docs r.2 = docs w ∧
  sent r.2 = sent w ++ [ReqDocGet ppt_id] ++ (ReqBlobDelete <$> asset_paths good).
Proof.
  intros Hdoc Hown%eq_str_true Hslides Hok Hbad H0 r. subst r.
  rewrite delete_presentation_run. cbv zeta. rewrite fate_at_0 in H0.
  rewrite H0, Hdoc, Hown, Hslides. simpl.
  rewrite for_each_app.
  set (w1 := sending (ReqDocGet ppt_id) w).
  destruct (for_each_delete_slide_image good w1 Hok) as (L1 & L2 & L3 & _).
  destruct (for_each good delete_slide_image w1) as [[[]|e] w2]; [|done].
  cbn [fst snd] in *. cbn [for_each]. unfold mbind, M_bind, bind.
  assert (Hstop : delete_slide_image bad w2 = (Raise AttributeError, w2)).
  { unfold delete_slide_image. unfold_monad.
    destruct bad; try done. by destruct (Hbad d). }
  rewrite Hstop. cbn [fst snd]. rewrite L2, L3. simpl.
  by rewrite <- app_assoc.
Qed.

Lemma delete_presentation_stops_at_bad_slide_witness :
  let w := set_docs (insert "9" [("user_id", VStr "alice");
                                 ("slides", VList [VDict [("image_storage_path", VStr "a.jpg")];
                                                   VInt 1;
                                                   VDict [("image_storage_path", VStr "b.jpg")]])])
                    quiet in
  (delete_presentation "9" "alice" w).1 = Ok false ∧
  docs (delete_presentation "9" "alice" w).2 = docs w ∧
  sent (delete_presentation "9" "alice" w).2 = [ReqDocGet "9"; ReqBlobDelete "a.jpg"].
Proof.
  intros w.
  apply (delete_presentation_stops_at_bad_slide w "9" "alice"
           [("user_id", VStr "alice");
            ("slides", VList [VDict [("image_storage_path", VStr "a.jpg")];
                              VInt 1;
                              VDict [("image_storage_path", VStr "b.jpg")]])]
           [VDict [("image_storage_path", VStr "a.jpg")]]
           [VDict [("image_storage_path", VStr "b.jpg")]] (VInt 1));
    try reflexivity; try discriminate.
  repeat constructor.
Defined.

(* ===================================================================== *)
(** ** Listing, when the cap does not bite *)
(* ===================================================================== *)

Lemma select_all owner limit store d :
  (Z.of_nat (size store) ≤ limit)%Z →
  d ∈ Firestore.select owner limit store ↔
  Py.get d "user_id" = VStr owner ∧ ∃ id, store !! id = Some d.
Proof.
  intros Hcap. unfold Firestore.select.
  rewrite take_ge.
  2:{ rewrite merge_sort_Permutation.
      etrans; [apply length_filter|]. rewrite length_fmap, length_map_to_list. lia. }
  rewrite merge_sort_Permutation, list_elem_of_filter.
  unfold Firestore.owned_by. rewrite eq_str_true.
  split; intros [Hown Hin]; (split; [done|]).
  - apply list_elem_of_fmap in Hin as ([id d'] & -> & Hin).
    apply elem_of_map_to_list in Hin. by exists id.
  - destruct Hin as [id Hid]. apply list_elem_of_fmap.
    exists (id, d). split; [done|]. by apply elem_of_map_to_list.
Qed.

Lemma collect_raises {A B} (f : A → outcome B) xs x e :
  x ∈ xs → f x = Raise e → ∃ e', collect xs f = Raise e'.
Proof.
  intros Hin Hx. induction xs as [|y xs IH]; [by apply elem_of_nil in Hin|].
  simpl. unfold mbind, outcome_bind.
  destruct (f y) as [b|e'] eqn:Hy; [|by eexists].
  apply elem_of_cons in Hin as [->|Hin]; [congruence|].
  destruct (IH Hin) as [e'' ->]. by eexists.
Qed.

Lemma collect_all {A B} (f : A → outcome B) xs :
  Forall (λ x, ∃ y, f x = Ok y) xs →
  ∃ ys, collect xs f = Ok ys ∧ Forall2 (λ x y, f x = Ok y) xs ys.
Proof.
  induction 1 as [|x xs [y Hy] _ (ys & Hys & Hall)]; simpl.
  - exists []. by split.
  - exists (y :: ys). unfold mbind, outcome_bind. rewrite Hy, Hys.
    split; [done | by constructor].
Qed.

(** X20.  One bad record empties the whole listing: when a record of the
    queried owner has a first slide that is not a mapping, and the cap
    (fifty when no limit is given) is not below the number of stored
    records, [get_user_presentations] returns the empty list, whatever
    else the owner has stored. *)
Theorem get_user_presentations_poisoned
    (w : world) (owner_id id : string) (limit : option Z)
    (data : pydict) (slide : value) (rest : list value) :
  docs w !! id = Some data →
  Py.get data "user_id" = VStr owner_id →
  Py.lookup data "slides" = Some (VList (slide :: rest)) →
  (∀ d, slide ≠ VDict d) →
  (Z.of_nat (size (docs w)) ≤ default 50 limit)%Z →
  (get_user_presentations owner_id limit w).1 = Ok [].
Proof.
  intros Hdoc Hown Hslides Hbad Hcap. rewrite get_user_presentations_run. cbv zeta.
  destruct (fails (next_fate w)); [done|]. cbn [fst].
  assert (Hin : data ∈ Firestore.select owner_id (default 50%Z limit) (docs w)).
  { apply select_all; [done|]. split; [done | by exists id]. }
  assert (Hsum : summary data = Raise AttributeError).
  { unfold summary, thumbnail, Py.get, Py.get_default. rewrite Hslides. simpl.
    destruct slide; try done. by destruct (Hbad d). }
  destruct (collect_raises _ _ _ _ Hin Hsum) as [e ->]. done.
Qed.

Lemma get_user_presentations_poisoned_witness :
  let w := set_docs (insert "9" [("user_id", VStr "alice");
                                 ("slides", VList [VStr "title"])]) library in
  (get_user_presentations "alice" None library).1 ≠ Ok [] ∧
  (get_user_presentations "alice" None w).1 = Ok [].
Proof.
  intros w. split; [vm_compute; discriminate|].
  apply (get_user_presentations_poisoned w "alice" "9" None
           [("user_id", VStr "alice"); ("slides", VList [VStr "title"])]
           (VStr "title") []); try reflexivity; try discriminate.
Defined.

(** X21.  Nothing of the owner's is left out when the cap does not bite:
    when the platform serves the query, every record of the queried owner
    can be summarised, and the cap (fifty when no limit is given) is not
    below the number of stored records, the listing holds the summary of
    every record of that owner. *)
Theorem get_user_presentations_complete
    (w : world) (owner_id : string) (limit : option Z) :
  fails (fate_at w 0) = false →
  (Z.of_nat (size (docs w)) ≤ default 50 limit)%Z →
  (∀ id data, docs w !! id = Some data →
              Py.get data "user_id" = VStr owner_id →
              ∃ s, summary data = Ok s) →
  ∃ out,
    (get_user_presentations owner_id limit w).1 = Ok out ∧
    ∀ id data, docs w !! id = Some data →
               Py.get data "user_id" = VStr owner_id →
               ∃ s, summary data = Ok s ∧ s ∈ out.
Proof.
  intros Hserved Hcap Hgood. rewrite fate_at_0 in Hserved.
  rewrite get_user_presentations_run. cbv zeta. rewrite Hserved. cbn [fst].
  destruct (collect_all summary
              (Firestore.select owner_id (default 50%Z limit) (docs w)))
    as (out & Hout & Hall).
  { apply Forall_forall. intros d Hd.
    apply select_all in Hd as [Hown [id Hid]]; [|done]. by apply (Hgood id). }
  rewrite Hout. exists out. split; [done|].
  intros id data Hdoc Hown.
  assert (Hin : data ∈ Firestore.select owner_id (default 50%Z limit) (docs w)).
  { apply select_all; [done|]. split; [done | by exists id]. }
  apply list_elem_of_lookup in Hin as [i Hi].
  destruct (Forall2_lookup_l _ _ _ _ _ Hall Hi) as (s & Hs & Hsum).
  exists s. split; [done|]. by apply list_elem_of_lookup_2 in Hs.
Qed.

Lemma library_summarises :
  ∀ id data, docs library !! id = Some data → ∃ s, summary data = Ok s.
Proof.
  assert (H : map_Forall
                (λ _ d, (match summary d with Ok _ => true | Raise _ => false end)
                        = true) (docs library)).
  { apply (bool_decide_unpack _). vm_compute. reflexivity. }
  intros id data Hdoc. specialize (H id data Hdoc). simpl in H.
  destruct (summary data); [by eexists | discriminate].
Qed.

Lemma get_user_presentations_complete_witness :
  ∃ out s,
    (get_user_presentations "alice" None library).1 = Ok out ∧
    summary tides = Ok s ∧ length out = 2.
Proof.
  destruct (get_user_presentations_complete library "alice" None)
    as (out & Hout & Hall); [reflexivity | discriminate | |].
  - intros id data Hdoc _. by apply (library_summarises id).
  - exists out. eexists. split; [exact Hout|]. split; [reflexivity|].
    vm_compute in Hout. by injection Hout as <-.
Defined.

(* ===================================================================== *)
(** ** Records stay stamped *)
(* ===================================================================== *)

Lemma reachable_stamps_ok_witness : stamps_ok shelf.
Proof. apply reachable_stamps_ok. exact reachable_shelf. Defined.

(* ===================================================================== *)
(** ** Construction of the service *)
(* ===================================================================== *)

(** X23.  In a process not yet initialized, [FirebaseService()] returns
    exactly when an app is already registered, or the service key exists
    and the platform takes it.  It then leaves the service initialized,
    with its client and its bucket, and has registered an app only if
    there was none.  With no app and no key file it raises
    [FileNotFoundError]; and whenever it raises, the service stays
    uninitialized and no app is registered, though the instance has been
    made. *)
Theorem construct_outcomes (p : process) :
  initialized p = false →
  let r := Startup.construct p in
  ((∃ o, r.1 = Ok o) ↔
     0 < apps p ∨ (key_exists p = true ∧ key_accepted p = true)) ∧
  ((∃ o, r.1 = Ok o) →
     initialized r.2 = true ∧ db r.2 = true ∧
     bucket_handle r.2 = Some "fy-project-518d9.appspot.com" ∧
     apps r.2 = (if apps p =? 0 then 1 else apps p)) ∧
  (apps p = 0 → key_exists p = false → r.1 = Raise FileNotFoundError) ∧
  (∀ e, r.1 = Raise e →
     initialized r.2 = false ∧ apps r.2 = apps p ∧ is_Some (instance r.2)).
Proof.
  intros Hinit r. subst r.
  unfold Startup.construct, Startup.new, Startup.init, Startup.initialize_firebase,
    Startup.initialize_firebase_try, Startup.initialize_app.
  destruct p as [inst ini d b a ke ka nx]. simpl in Hinit. subst ini.
  destruct inst as [o|]; simpl;
    destruct a as [|a]; simpl;
    destruct ke, ka; simpl;
    (split_and!; [naive_solver lia | naive_solver | naive_solver | naive_solver]).
Qed.

Lemma construct_outcomes_witness :
  (Startup.construct (fresh true true)).1 = Ok 0 ∧
  (Startup.construct (fresh false true)).1 = Raise FileNotFoundError ∧
  initialized (Startup.construct (fresh false true)).2 = false.
Proof.
  destruct (construct_outcomes (fresh false true) eq_refl) as (_ & _ & Hmiss & Hfail).
  destruct (construct_outcomes (fresh true true) eq_refl) as (_ & _ & _ & _).
  split_and!; [reflexivity | by apply Hmiss |].
  by destruct (Hfail FileNotFoundError (Hmiss eq_refl eq_refl)) as [? _].
Defined.

(** X24.  The service is a singleton that initializes once: after a
    construction that returned, every further construction returns the
    same instance and changes nothing, with or without the key file; and
    after a construction that raised, one made when the key exists and is
    taken returns the very instance the failed one made. *)
Theorem construct_singleton (p p' : process) :
  (∀ o, Startup.construct p = (Ok o, p') →
     ∀ ke ka, Startup.construct (with_key ke ka p') = (Ok o, with_key ke ka p')) ∧
  (∀ e, Startup.construct p = (Raise e, p') →
     ∃ o, instance p' = Some o ∧
          (Startup.construct (with_key true true p')).1 = Ok o).
Proof.
  unfold Startup.construct, Startup.new, Startup.init, Startup.initialize_firebase,
    Startup.initialize_firebase_try, Startup.initialize_app, with_key.
  destruct p as [inst ini d b a ke ka nx].
  split.
  - intros o Hrun ke' ka'.
    destruct inst as [o0|], ini; simpl in *;
      try (destruct a as [|a]; simpl in *);
      try (destruct ke, ka; simpl in * );
      try discriminate; by injection Hrun as <- <-.
  - intros e Hrun.
    destruct inst as [o0|], ini; simpl in *;
      try (destruct a as [|a]; simpl in *);
      try (destruct ke, ka; simpl in * );
      try discriminate; injection Hrun as <- <-; simpl; by eexists.
Qed.

Lemma construct_singleton_witness :
  let p' := (Startup.construct (fresh true true)).2 in
  Startup.construct (with_key false false p') = (Ok 0, with_key false false p') ∧
  (Startup.construct
     (with_key true true (Startup.construct (fresh false true)).2)).1 = Ok 0.
Proof.
  intros p'.
  destruct (construct_singleton (fresh true true) p') as [Hagain _].
  destruct (construct_singleton (fresh false true)
              (Startup.construct (fresh false true)).2) as [_ Hretry].
  split.
  - by apply Hagain.
  - destruct (Hretry FileNotFoundError eq_refl) as (o & Ho & Hrun).
    injection Ho as <-. exact Hrun.
Defined.
